(** * The Couchbase integration: classified, bounded retry with reconnection

    A shallow embedding of [packages/server/src/integrations/couchbase.ts].
    The file exists in two revisions, both embedded here:

    - [CouchbaseSql], the older SQL-only connector, whose cluster handle is
      created by the constructor and whose [connect] hands that handle back;
    - [CouchbaseKv], the newer connector with key-value statements, whose
      [connect] opens a new cluster connection on every call.

    The remote cluster is an environment: a [World] answers every handshake
    and every store call as a function of the history of the run.  The
    connector is written in a state-and-exception monad over the instance
    fields and that history. *)

From stdpp Require Import gmap strings list.
From Stdlib Require Import ZArith Lia DecimalString DecimalPos DecimalZ.

#[local] Set Warnings "-register-all".
#[local] Open Scope string_scope.
#[local] Open Scope Z_scope.
#[local] Open Scope list_scope.

(** ** JavaScript values *)

Inductive value : Type :=
  | VUndefined
  | VNull
  | VBool (b : bool)
  | VNum (z : Z)              (* an integer-valued number in the exact range *)
  | VNaN
  | VStr (s : string)
  | VError (message : string) (* an instance of Error *)
  | VArr (items : list value)
  | VObj (fields : gmap string value).

(** A result object of the SDK ([QueryResult], [GetResult],
    [MutationResult]): a map from property names to values. *)
Abbreviation obj := (gmap string value).

(** [o.name]: a missing property reads as [undefined]. *)
Definition getProp (o : obj) (name : string) : value :=
  default VUndefined (o !! name).

(** [err instanceof Error] *)
Definition instanceofError (v : value) : bool :=
  match v with VError _ => true | _ => false end.

(** [err.message], read on an [Error]. *)
Definition errMessage (v : value) : string :=
  match v with VError m => m | _ => "" end.

Definition decimal (z : Z) : string := NilZero.string_of_int (Z.to_int z).

(** [String(v)] *)
Fixpoint toString (v : value) : string :=
  match v with
  | VUndefined => "undefined"
  | VNull => "null"
  | VBool true => "true"
  | VBool false => "false"
  | VNum z => decimal z
  | VNaN => "NaN"
  | VStr s => s
  | VError m => if String.eqb m "" then "Error" else "Error: " +:+ m
  | VArr items =>
      (fix join (l : list value) : string :=
         let item x :=
           match x with VUndefined | VNull => "" | _ => toString x end in
         match l with
         | [] => ""
         | [x] => item x
         | x :: rest => item x +:+ "," +:+ join rest
         end) items
  | VObj _ => "[object Object]"
  end.

(** Truthiness, as tested by [!value] and by [c ? a : b]. *)
Definition truthy (v : value) : bool :=
  match v with
  | VUndefined | VNull | VNaN => false
  | VBool b => b
  | VNum z => negb (z =? 0)
  | VStr s => negb (String.eqb s "")
  | VError _ | VArr _ | VObj _ => true
  end.

(** [a || b] on values. *)
Definition orElse (a b : value) : value := if truthy a then a else b.

(** ** The retry budget

    The parameter [retry] is declared [number]; its value comes from
    [config.maxRetries], which an untyped configuration may leave out or set
    to [null].  Numbers are integer-valued and within the range where
    subtraction is exact. *)

Inductive budget : Type :=
  | BInt (z : Z)
  | BNaN
  | BUndefined
  | BNull.

(** [ToNumber]; [None] stands for NaN. *)
Definition toNumber (b : budget) : option Z :=
  match b with
  | BInt z => Some z
  | BNaN => None
  | BUndefined => None
  | BNull => Some 0
  end.

(** [retry <= 0]: false as soon as an operand is NaN. *)
Definition le_zero (b : budget) : bool :=
  match toNumber b with Some z => z <=? 0 | None => false end.

(** Truthiness of a budget, as tested by [retry ? .. : ..]. *)
Definition truthy_budget (b : budget) : bool :=
  match b with BInt z => negb (z =? 0) | _ => false end.

(** [retry - 1] *)
Definition minus_one (b : budget) : budget :=
  match toNumber b with Some z => BInt (z - 1) | None => BNaN end.

(** ** The error classifier *)

Definition retryErrorCodes : list string := ["107"; "100"; "170"; "201"].
Definition defaultMaxRetries : Z := 3.

Definition closedClusterMessage : string :=
  "parent cluster object has been closed".

(** [arr.includes(x)] on an array of strings. *)
Fixpoint includes (arr : list string) (x : string) : bool :=
  match arr with
  | [] => false
  | y :: rest => if String.eqb y x then true else includes rest x
  end.

(** The head of the [catch] block:
    [if (err instanceof Error) message = err.message else message = String(err)] *)
Definition messageOf (err : value) : string :=
  if instanceofError err then errMessage err else toString err.

(** The test of the [catch] block:
    [retryErrorCodes.includes(message) || message == "parent cluster ..."] *)
Definition isRetryable (err : value) : bool :=
  let message := messageOf err in
  includes retryErrorCodes message || String.eqb message closedClusterMessage.

Inductive verdict : Type := Retryable | Fatal.

Definition classify (err : value) : verdict :=
  if isRetryable err then Retryable else Fatal.

(** [new Error("Couchbase max retries exceeded")] *)
Definition maxRetriesExceeded : value := VError "Couchbase max retries exceeded".

(** ** Configuration, queries *)

Record CouchbaseConfig : Type := {
  certificatePath : string;
  username : string;
  password : string;
  bucketName : string;
  maxRetries : budget;
  connectionString : string;
}.

Record SqlQuery : Type := { sql : string }.

(** ** The cluster as an environment *)

(** A handle names the handshake that produced it. *)
Definition handle : Type := nat.

(** The calls the connector issues on a handle. *)
Inductive call : Type :=
  | CQuery (text : string)               (* cluster.query(sql) *)
  | CGet (key : string)                  (* defaultCollection().get(key) *)
  | CUpsert (key : string) (v : value)   (* defaultCollection().upsert(key, value) *)
  | CRemove (key : string).              (* defaultCollection().remove(key) *)

Inductive event : Type :=
  | Handshake (h : handle)               (* the SDK's connect(..) was started *)
  | Call (h : handle) (c : call)         (* one underlying attempt *)
  | ConsoleError (e : value)             (* console.error(err) *)
  | ConsoleLog (label : string) (e : value).

Inductive reply : Type :=
  | Resolve (r : obj)
  | Reject (e : value).

(** The environment decides from the history so far whether a handshake
    succeeds ([None]) or is rejected, and how a call on a handle settles. *)
Record World : Type := {
  handshake : list event -> option value;
  store : list event -> handle -> call -> reply;
}.

Definition isHandshake (e : event) : bool :=
  match e with Handshake _ => true | _ => false end.

Definition isCall (e : event) : bool :=
  match e with Call _ _ => true | _ => false end.

Fixpoint count (p : event -> bool) (tr : list event) : nat :=
  match tr with
  | [] => O
  | e :: rest => ((if p e then 1 else 0) + count p rest)%nat
  end.

(** Number of handshakes started, and of underlying attempts made. *)
Definition handshakes (tr : list event) : nat := count isHandshake tr.
Definition attempts (tr : list event) : nat := count isCall tr.

(** ** State and control *)

(** The instance fields [self] together with the history of the run. *)
Record state (F : Type) : Type := mkState {
  self : F;
  trace : list event;
}.
Arguments mkState {F} _ _.
Arguments self {F} _.
Arguments trace {F} _.

Inductive outcome (A : Type) : Type :=
  | Return (a : A)      (* the promise resolved *)
  | Throw (e : value)   (* the promise was rejected *)
  | OutOfFuel.          (* still running when the fuel ran out *)
Arguments Return {A} _.
Arguments Throw {A} _.
Arguments OutOfFuel {A}.

Definition M (F A : Type) : Type := state F -> outcome A * state F.

Definition ret {F A} (a : A) : M F A := fun st => (Return a, st).

Definition bind {F A B} (m : M F A) (k : A -> M F B) : M F B :=
  fun st =>
    match m st with
    | (Return a, st1) => k a st1
    | (Throw e, st1) => (Throw e, st1)
    | (OutOfFuel, st1) => (OutOfFuel, st1)
    end.

Definition throw {F A} (e : value) : M F A := fun st => (Throw e, st).

Definition out_of_fuel {F A} : M F A := fun st => (OutOfFuel, st).

(** [try { m } catch (err) { handler err }] *)
Definition try_catch {F A} (m : M F A) (handler : value -> M F A) : M F A :=
  fun st =>
    match m st with
    | (Throw e, st1) => handler e st1
    | r => r
    end.

Definition log {F} (e : event) (st : state F) : state F :=
  mkState (self st) (trace st ++ [e]).

Definition emit {F} (e : event) : M F unit := fun st => (Return tt, log e st).

Notation "x <- m ;; k" := (bind m (fun x => k))
  (at level 20, m at level 99, k at level 200, only parsing).
Notation "m ;; k" := (bind m (fun _ => k))
  (at level 100, k at level 200, only parsing, right associativity).

Section Store.
Context {F : Type}.
Variable w : World.

(** One underlying attempt: the call is recorded, then settles as the
    world decides. *)
Definition storeCall (h : handle) (c : call) : M F obj :=
  fun st =>
    match store w (trace st) h c with
    | Resolve r => (Return r, log (Call h c) st)
    | Reject e => (Throw e, log (Call h c) st)
    end.

(** The SDK's [connect(..)], awaited: a handshake is started and the
    world decides whether it yields its handle. *)
Definition sdkConnect : M F handle :=
  fun st =>
    let h := handshakes (trace st) in
    match handshake w (trace st) with
    | None => (Return h, log (Handshake h) st)
    | Some e => (Throw e, log (Handshake h) st)
    end.
End Store.

(** ** The older revision: SQL only *)

Module CouchbaseSql.

(** [private cluster: Cluster], assigned once by the constructor. *)
Record fields : Type := { cluster : handle }.

Section Integration.
Variable config : CouchbaseConfig.
Variable w : World.
(* [getSqlQuery] of [./utils]: turns a string or a query into a query. *)
Variable getSqlQuery : string + SqlQuery -> SqlQuery.

(** Reading [this.cluster]. *)
Definition this_cluster : M fields handle :=
  fun st => (Return (cluster (self st)), st).

(** [async connect() { return await this.cluster }] *)
Definition connect : M fields handle := this_cluster.

(** [this.connect()] without [await]: the call reads the field and its
    promise is dropped. *)
Definition connect_unawaited : M fields unit := ret tt.

Fixpoint internalQuery (fuel : nat) (query : SqlQuery) (retry : budget)
  : M fields obj :=
  match fuel with
  | O => out_of_fuel
  | S fuel =>
      client <- this_cluster ;;
      try_catch
        (c <- this_cluster ;; storeCall w c (CQuery (sql query)))
        (fun err =>
           if isRetryable err then
             connect_unawaited ;;
             if le_zero retry then
               emit (ConsoleError err) ;;
               throw maxRetriesExceeded
             else
               internalQuery fuel query
                 (if truthy_budget retry then minus_one retry
                  else maxRetries config)
           else
             emit (ConsoleLog "Unexpected error" err) ;;
             throw err)
  end.

Definition read (fuel : nat) (query : string + SqlQuery) : M fields value :=
  connect ;;
  response <- internalQuery fuel (getSqlQuery query) (maxRetries config) ;;
  ret (getProp response "recordset").

Definition marker (name : string) : value :=
  VArr [VObj {[ name := VBool true ]}].

Definition create (fuel : nat) (query : string + SqlQuery) : M fields value :=
  connect ;;
  response <- internalQuery fuel (getSqlQuery query) (maxRetries config) ;;
  ret (orElse (getProp response "recordset") (marker "created")).

Definition update (fuel : nat) (query : string + SqlQuery) : M fields value :=
  connect ;;
  response <- internalQuery fuel (getSqlQuery query) (maxRetries config) ;;
  ret (orElse (getProp response "recordset") (marker "updated")).

Definition delete (fuel : nat) (query : string + SqlQuery) : M fields value :=
  connect ;;
  response <- internalQuery fuel (getSqlQuery query) (maxRetries config) ;;
  ret (orElse (getProp response "recordset") (marker "deleted")).
End Integration.

End CouchbaseSql.

(** ** The newer revision: SQL reads and key-value statements *)

Module CouchbaseKv.

(** [cluster] and [bucket] start as [null].  A bucket is named by the
    handle of the cluster it was derived from.  [pending] lists the
    handshakes started by a [connect()] nobody awaited: each assigns both
    fields when it settles, at a time this sequential model leaves open. *)
Record fields : Type := {
  cluster : option handle;
  bucket : option handle;
  pending : list handle;
}.

Definition constructed : fields :=
  {| cluster := None; bucket := None; pending := [] |}.

Section Integration.
Variable config : CouchbaseConfig.
Variable w : World.
Variable getSqlQuery : string + SqlQuery -> SqlQuery.

Definition set_cluster (h : handle) : M fields unit :=
  fun st =>
    (Return tt,
     mkState {| cluster := Some h; bucket := bucket (self st);
                pending := pending (self st) |} (trace st)).

Definition set_bucket (h : handle) : M fields unit :=
  fun st =>
    (Return tt,
     mkState {| cluster := cluster (self st); bucket := Some h;
                pending := pending (self st) |} (trace st)).

(** [this.cluster = await connect(..); this.bucket = this.cluster.bucket(..);
    return this.bucket] *)
Definition connect : M fields handle :=
  c <- sdkConnect w ;;
  set_cluster c ;;
  set_bucket c ;;
  ret c.

(** [this.connect()] without [await]: the handshake is started at once,
    the rest of [connect] runs whenever it settles. *)
Definition connect_unawaited : M fields unit :=
  fun st =>
    let h := handshakes (trace st) in
    (Return tt,
     mkState {| cluster := cluster (self st); bucket := bucket (self st);
                pending := pending (self st) ++ [h] |}
             (trace st ++ [Handshake h])).

Fixpoint internalQuery (fuel : nat) (query : SqlQuery) (retry : budget)
  : M fields obj :=
  match fuel with
  | O => out_of_fuel
  | S fuel =>
      bucket <- connect ;;
      try_catch
        (storeCall w bucket (CQuery (sql query)))
        (fun err =>
           if isRetryable err then
             connect_unawaited ;;
             if le_zero retry then
               emit (ConsoleError err) ;;
               throw maxRetriesExceeded
             else
               internalQuery fuel query
                 (if truthy_budget retry then minus_one retry
                  else maxRetries config)
           else
             emit (ConsoleLog "Unexpected error" err) ;;
             throw err)
  end.

Fixpoint internalKeyValueStatement (fuel : nat) (key : string)
  (value : value) (deletion : bool) (retry : budget) : M fields obj :=
  match fuel with
  | O => out_of_fuel
  | S fuel =>
      bucket <- connect ;;
      try_catch
        (if negb deletion then
           if negb (truthy value) then storeCall w bucket (CGet key)
           else storeCall w bucket (CUpsert key value)
         else storeCall w bucket (CRemove key))
        (fun err =>
           if isRetryable err then
             connect_unawaited ;;
             if le_zero retry then
               emit (ConsoleError err) ;;
               throw maxRetriesExceeded
             else
               internalKeyValueStatement fuel key value deletion
                 (if truthy_budget retry then minus_one retry
                  else maxRetries config)
           else
             emit (ConsoleLog "Unexpected error" err) ;;
             throw err)
  end.

Definition read (fuel : nat) (query : string + SqlQuery) : M fields value :=
  connect ;;
  queryResult <- internalQuery fuel (getSqlQuery query) (maxRetries config) ;;
  ret (getProp queryResult "rows").

(** The argument [{ id, value }] of [insert]. *)
Record Entry : Type := { id : string; value_of : value }.

Definition insert (fuel : nat) (query : Entry) : M fields obj :=
  connect ;;
  result <- internalKeyValueStatement fuel (id query) (value_of query)
              false (maxRetries config) ;;
  ret result.

Definition delete (fuel : nat) (id : string) : M fields obj :=
  connect ;;
  result <- internalKeyValueStatement fuel id VNull true
              (maxRetries config) ;;
  ret result.

Definition get (fuel : nat) (id : string) : M fields value :=
  connect ;;
  result <- internalKeyValueStatement fuel id VNull false
              (maxRetries config) ;;
  ret (getProp result "content").
End Integration.

End CouchbaseKv.

(** ** The retry skeleton shared by the three executors

    [internalQuery] (both revisions) and [internalKeyValueStatement] are the
    same loop around three parts: how the handle is obtained before the
    [try], which call is attempted, and what [this.connect()] does in the
    [catch].  [executor] is that loop; each source function is shown below
    to run exactly as one of its instances. *)

Section Executor.
Context {F : Type}.
Variable w : World.
Variable limit : budget.
Variable acquire : M F handle.
Variable op : call.
Variable reconnect : M F unit.

Definition nextBudget (retry : budget) : budget :=
  if truthy_budget retry then minus_one retry else limit.

Fixpoint executor (fuel : nat) (retry : budget) : M F obj :=
  match fuel with
  | O => out_of_fuel
  | S fuel =>
      h <- acquire ;;
      try_catch
        (storeCall w h op)
        (fun err =>
           if isRetryable err then
             reconnect ;;
             if le_zero retry then
               emit (ConsoleError err) ;;
               throw maxRetriesExceeded
             else executor fuel (nextBudget retry)
           else
             emit (ConsoleLog "Unexpected error" err) ;;
             throw err)
  end.
End Executor.

(** The call chosen by the [try] block of [internalKeyValueStatement]. *)
Definition kvCall (key : string) (v : value) (deletion : bool) : call :=
  if negb deletion then
    if negb (truthy v) then CGet key else CUpsert key v
  else CRemove key.

(** The events that are not underlying attempts. *)
Definition quiet (e : event) : Prop := isCall e = false.

(** Every attempt in the history directly follows the handshake that
    produced the handle it is made on. *)
Definition attempts_follow_handshake (tr : list event) : Prop :=
  forall i h c, tr !! i = Some (Call h c) ->
    exists j, i = S j /\ tr !! j = Some (Handshake h).

(** The store rejects every call with an error the classifier takes for
    Retryable. *)
Definition rejects_every_call (w : World) : Prop :=
  forall tr h c, exists e, store w tr h c = Reject e /\ isRetryable e = true.

(** The cluster accepts every handshake. *)
Definition accepts_every_handshake (w : World) : Prop :=
  forall tr, handshake w tr = None.

(** ** Histories and instances the statements speak of *)

(** [st'] continues the history of [st] by events that all satisfy [P]. *)
Definition extends {F} (P : event -> Prop) (st st' : state F) : Prop :=
  exists new, trace st' = trace st ++ new /\ Forall P new.

(** The instance once a [connect()] that obtained [h] has returned. *)
Definition kv_connected (h : handle) (st : state CouchbaseKv.fields)
  : state CouchbaseKv.fields :=
  mkState {| CouchbaseKv.cluster := Some h; CouchbaseKv.bucket := Some h;
             CouchbaseKv.pending := CouchbaseKv.pending (self st) |}
          (trace st ++ [Handshake h]).

(** The instance once an un-awaited [connect()] has started handshake [h]. *)
Definition kv_reconnecting (h : handle) (st : state CouchbaseKv.fields)
  : state CouchbaseKv.fields :=
  mkState {| CouchbaseKv.cluster := CouchbaseKv.cluster (self st);
             CouchbaseKv.bucket := CouchbaseKv.bucket (self st);
             CouchbaseKv.pending := CouchbaseKv.pending (self st) ++ [h] |}
          (trace st ++ [Handshake h]).

(** The key-value instance after a round whose attempt [op] was rejected
    with a transient error: connected on [h], the call made, and one more
    handshake started by the un-awaited [connect()]. *)
Definition kv_after_rejection (op : call) (st : state CouchbaseKv.fields)
  : state CouchbaseKv.fields :=
  let h := handshakes (trace st) in
  kv_reconnecting (S h) (log (Call h op) (kv_connected h st)).

(** The part of a history that follows its first underlying attempt. *)
Fixpoint after_first_call (tr : list event) : list event :=
  match tr with
  | [] => []
  | Call _ _ :: rest => rest
  | _ :: rest => after_first_call rest
  end.

(** Modelled from the spec: [getSqlQuery] of [./utils] is not among the
    sources; it "normalizes input to a canonical query shape".  A string
    becomes the query with that text, a query is kept as it is. *)
Definition canonicalQuery (query : string + SqlQuery) : SqlQuery :=
  match query with
  | inl text => {| sql := text |}
  | inr q => q
  end.

(** ** Worlds and instances used in the examples *)

(** Every handshake is accepted, every call is rejected with [e]. *)
Definition rejecting (e : value) : World :=
  {| handshake := fun _ => None; store := fun _ _ _ => Reject e |}.

(** Every handshake is accepted, every call resolves with [r]. *)
Definition resolving (r : obj) : World :=
  {| handshake := fun _ => None; store := fun _ _ _ => Resolve r |}.

(** The first call is rejected with [e], every later one resolves with [r]. *)
Definition failing_once (e : value) (r : obj) : World :=
  {| handshake := fun _ => None;
     store := fun tr _ _ =>
       match attempts tr with O => Reject e | S _ => Resolve r end |}.

Definition configured (retries : budget) : CouchbaseConfig :=
  {| certificatePath := ""; username := "Administrator"; password := "secret";
     bucketName := "travel"; maxRetries := retries;
     connectionString := "couchbase://localhost" |}.

Definition select1 : SqlQuery := {| sql := "SELECT 1" |}.

(** A newly constructed key-value connector. *)
Definition kv_new : state CouchbaseKv.fields := mkState CouchbaseKv.constructed [].

(** An empty result set, in the shape either revision reads. *)
Definition no_rows : obj := {[ "rows" := VArr []; "recordset" := VArr [] ]}.

(** ** Further worlds and predicates on histories *)

(** The first [k] calls are rejected with [e], every later one resolves
    with [r]; every handshake is accepted. *)
Definition failing_times (k : nat) (e : value) (r : obj) : World :=
  {| handshake := fun _ => None;
     store := fun tr _ _ =>
       if (attempts tr <? k)%nat then Reject e else Resolve r |}.

(** No handshake is accepted: each one is rejected with [e]. *)
Definition unreachable (e : value) : World :=
  {| handshake := fun _ => Some e; store := fun _ _ _ => Reject e |}.

(** The cluster accepts a handshake as long as fewer than [k] were started
    and rejects the later ones with [refusal]; every call is rejected
    with [e]. *)
Definition refusing_after (k : nat) (refusal e : value) : World :=
  {| handshake := fun tr =>
       if (handshakes tr <? k)%nat then None else Some refusal;
     store := fun _ _ _ => Reject e |}.

(** From a history with [a0] attempts on, the cluster accepts every
    handshake, rejects the next [k] calls [op] with errors the classifier
    takes for transient, and resolves the call after those with [r]. *)
Definition recovers_after (w : World) (op : call) (a0 k : nat) (r : obj)
  : Prop :=
  (forall tr, handshake w tr = None) /\
  (forall tr h, (attempts tr < a0 + k)%nat ->
     exists e, store w tr h op = Reject e /\ isRetryable e = true) /\
  (forall tr h, attempts tr = (a0 + k)%nat -> store w tr h op = Resolve r).

(** A budget that the test [retry <= 0] lets pass and that is falsy: the
    next round runs on the configured [maxRetries]. *)
Definition unbounded (b : budget) : Prop :=
  le_zero b = false /\ truthy_budget b = false.

(** Each handshake of the history carries the number of handshakes started
    before it. *)
Definition handshakes_numbered (tr : list event) : Prop :=
  forall j h, tr !! j = Some (Handshake h) -> h = handshakes (take j tr).

(** The marker object [{ name: true }]. *)
Definition flag (name : string) : value := VObj {[ name := VBool true ]}.

(** The outcome of [m] and the history it leaves depend on the history it
    starts from only, not on the fields of the instance. *)
Definition history_determined {F A} (m : M F A) : Prop :=
  forall st1 st2, trace st1 = trace st2 ->
    fst (m st1) = fst (m st2) /\
    trace (snd (m st1)) = trace (snd (m st2)).

(** No two attempts of the history run on the same handle: a later attempt
    is made on a later handshake. *)
Definition handles_never_reused (tr : list event) : Prop :=
  forall i1 i2 h1 c1 h2 c2, (i1 < i2)%nat ->
    tr !! i1 = Some (Call h1 c1) -> tr !! i2 = Some (Call h2 c2) ->
    (h1 < h2)%nat.

(** The events that are lines on the console. *)
Definition isConsole (e : event) : bool :=
  match e with
  | ConsoleError _ | ConsoleLog _ _ => true
  | _ => false
  end.

(** * Properties *)

(** ** Counting events *)

Lemma count_app p (a b : list event) :
  count p (a ++ b) = (count p a + count p b)%nat.
Proof.
  induction a as [|e a IH]; simpl; [reflexivity|].
  rewrite IH. lia.
Qed.

(** Closing steps on histories. *)
Ltac trace_eq := unfold log; simpl; rewrite <- ?app_assoc; reflexivity.

Ltac count_events :=
  unfold attempts, handshakes; rewrite ?count_app; simpl; lia.

Lemma attempts_log_call {F} (st : state F) h c :
  attempts (trace (log (Call h c) st)) = S (attempts (trace st)).
Proof. unfold attempts, log; simpl. rewrite count_app; simpl. lia. Qed.

Lemma attempts_log_quiet {F} (st : state F) e :
  quiet e -> attempts (trace (log e st)) = attempts (trace st).
Proof.
  unfold quiet, attempts, log; simpl; intros He.
  rewrite count_app; simpl. rewrite He. lia.
Qed.

Lemma handshakes_snoc tr h :
  handshakes (tr ++ [Handshake h]) = S (handshakes tr).
Proof. unfold handshakes. rewrite count_app; simpl. lia. Qed.

(** ** One round of the skeleton *)

Section ExecutorSteps.
Context {F : Type}.
Variable w : World.
Variable limit : budget.
Variable acquire : M F handle.
Variable op : call.
Variable reconnect : M F unit.

Local Abbreviation run := (executor w limit acquire op reconnect).

Lemma executor_acquire_throws fuel retry st e st1 :
  acquire st = (Throw e, st1) ->
  run (S fuel) retry st = (Throw e, st1).
Proof. intros Ha. simpl. unfold bind. rewrite Ha. reflexivity. Qed.

Lemma executor_resolves fuel retry st h st1 r :
  acquire st = (Return h, st1) ->
  store w (trace st1) h op = Resolve r ->
  run (S fuel) retry st = (Return r, log (Call h op) st1).
Proof.
  intros Ha Hs. simpl. unfold bind, try_catch, storeCall.
  rewrite Ha, Hs. reflexivity.
Qed.

Lemma executor_fatal fuel retry st h st1 e :
  acquire st = (Return h, st1) ->
  store w (trace st1) h op = Reject e ->
  isRetryable e = false ->
  run (S fuel) retry st =
    (Throw e, log (ConsoleLog "Unexpected error" e) (log (Call h op) st1)).
Proof.
  intros Ha Hs He. simpl. unfold bind, try_catch, storeCall.
  rewrite Ha, Hs, He. reflexivity.
Qed.

Lemma executor_exhausted fuel retry st h st1 e st2 :
  acquire st = (Return h, st1) ->
  store w (trace st1) h op = Reject e ->
  isRetryable e = true ->
  reconnect (log (Call h op) st1) = (Return tt, st2) ->
  le_zero retry = true ->
  run (S fuel) retry st =
    (Throw maxRetriesExceeded, log (ConsoleError e) st2).
Proof.
  intros Ha Hs He Hr Hz. simpl. unfold bind, try_catch, storeCall.
  rewrite Ha, Hs, He, Hr, Hz. reflexivity.
Qed.

Lemma executor_retries fuel retry st h st1 e st2 :
  acquire st = (Return h, st1) ->
  store w (trace st1) h op = Reject e ->
  isRetryable e = true ->
  reconnect (log (Call h op) st1) = (Return tt, st2) ->
  le_zero retry = false ->
  run (S fuel) retry st = run fuel (nextBudget limit retry) st2.
Proof.
  intros Ha Hs He Hr Hz. simpl. unfold bind, try_catch, storeCall.
  rewrite Ha, Hs, He, Hr, Hz. reflexivity.
Qed.
End ExecutorSteps.

(** ** Runs of the skeleton *)

Lemma extends_refl {F} P (st : state F) : extends P st st.
Proof. exists []. split; [by rewrite app_nil_r | constructor]. Qed.

Lemma extends_trans {F} P (a b c : state F) :
  extends P a b -> extends P b c -> extends P a c.
Proof.
  intros (n1 & E1 & F1) (n2 & E2 & F2). exists (n1 ++ n2). split.
  - by rewrite E2, E1, <- app_assoc.
  - by apply Forall_app.
Qed.

Lemma extends_log {F} (P : event -> Prop) (st : state F) e :
  P e -> extends P st (log e st).
Proof. intros He. exists [e]. split; [reflexivity | by repeat constructor]. Qed.

Lemma extends_weaken {F} (P Q : event -> Prop) (a b : state F) :
  (forall e, P e -> Q e) -> extends P a b -> extends Q a b.
Proof.
  intros HPQ (n & E & Fn). exists n. split; [done|].
  eapply Forall_impl; eauto.
Qed.

Lemma extends_quiet_attempts {F} (a b : state F) :
  extends quiet a b -> attempts (trace b) = attempts (trace a).
Proof.
  intros (n & E & Fn). rewrite E. unfold attempts. rewrite count_app.
  clear E. assert (count isCall n = O) as ->; [|lia].
  induction Fn as [|e n He _ IH]; simpl; [reflexivity|].
  unfold quiet in He. rewrite He, IH. reflexivity.
Qed.

Section ExecutorRuns.
Context {F : Type}.
Variable w : World.
Variable limit : budget.
Variable acquire : M F handle.
Variable op : call.
Variable reconnect : M F unit.

Local Abbreviation run := (executor w limit acquire op reconnect).

(** Neither obtaining the handle nor [this.connect()] makes an attempt. *)
Hypothesis acquire_quiet : forall st, extends quiet st (snd (acquire st)).
Hypothesis reconnect_quiet : forall st, extends quiet st (snd (reconnect st)).

(** Whatever the world does and however long the run, the only call the
    skeleton ever issues is [op]. *)
Lemma executor_calls_only_op fuel :
  forall retry st,
    extends (fun e => quiet e \/ exists h, e = Call h op) st
            (snd (run fuel retry st)).
Proof.
  set (P := fun e => quiet e \/ exists h, e = Call h op).
  assert (Hq : forall a b : state F, extends quiet a b -> extends P a b).
  { intros a b. apply extends_weaken. intros e He. by left. }
  assert (Hlog : forall (s : state F) e, quiet e -> extends P s (log e s)).
  { intros s e He. apply extends_log. by left. }
  assert (Hcall : forall (s : state F) h, extends P s (log (Call h op) s)).
  { intros s h. apply extends_log. right. by exists h. }
  induction fuel as [|fuel IH]; intros retry st; simpl.
  { apply extends_refl. }
  unfold bind, try_catch, storeCall.
  pose proof (Hq _ _ (acquire_quiet st)) as Ha.
  destruct (acquire st) as [[h|e|] st1]; simpl in Ha; try exact Ha.
  destruct (store w (trace st1) h op) as [r|e]; simpl.
  { eapply extends_trans; [exact Ha | apply Hcall]. }
  assert (Hc : extends P st (log (Call h op) st1)).
  { eapply extends_trans; [exact Ha | apply Hcall]. }
  destruct (isRetryable e).
  - pose proof (Hq _ _ (reconnect_quiet (log (Call h op) st1))) as Hr.
    destruct (reconnect (log (Call h op) st1)) as [[[]|e'|] st2];
      simpl in Hr; try (eapply extends_trans; [exact Hc | exact Hr]).
    destruct (le_zero retry); simpl.
    + eapply extends_trans; [exact Hc|].
      eapply extends_trans; [exact Hr | by apply Hlog].
    + eapply extends_trans; [exact Hc|].
      eapply extends_trans; [exact Hr | apply IH].
  - simpl. eapply extends_trans; [exact Hc | by apply Hlog].
Qed.

(** In a world that accepts the handshakes and rejects every call with a
    transient error, a budget of [n] is spent in exactly [n + 1] attempts
    and the run ends with the terminal failure. *)
Hypothesis acquire_returns :
  forall st, exists h st1, acquire st = (Return h, st1).
Hypothesis reconnect_returns :
  forall st, exists st1, reconnect st = (Return tt, st1).
Hypothesis store_rejects :
  forall tr h, exists e, store w tr h op = Reject e /\ isRetryable e = true.

Lemma nextBudget_succ n :
  nextBudget limit (BInt (Z.of_nat (S n))) = BInt (Z.of_nat n).
Proof.
  unfold nextBudget, truthy_budget, minus_one, toNumber.
  destruct (Z.eqb_spec (Z.of_nat (S n)) 0) as [E|_]; [lia|]. simpl negb.
  cbv iota. f_equal. lia.
Qed.

Lemma executor_exhausts n :
  forall fuel st, (n < fuel)%nat ->
    exists st',
      run fuel (BInt (Z.of_nat n)) st = (Throw maxRetriesExceeded, st') /\
      attempts (trace st') = (attempts (trace st) + n + 1)%nat.
Proof.
  induction n as [|n IH]; intros [|fuel] st Hf; try lia.
  - destruct (acquire_returns st) as (h & st1 & Ha).
    destruct (store_rejects (trace st1) h) as (e & Hs & He).
    destruct (reconnect_returns (log (Call h op) st1)) as (st2 & Hr).
    exists (log (ConsoleError e) st2). split.
    + eapply executor_exhausted; eauto.
    + rewrite attempts_log_quiet by reflexivity.
      pose proof (extends_quiet_attempts _ _ (reconnect_quiet (log (Call h op) st1))) as E2.
      rewrite Hr in E2; cbn [snd] in E2. rewrite E2, attempts_log_call.
      pose proof (extends_quiet_attempts _ _ (acquire_quiet st)) as E1.
      rewrite Ha in E1; cbn [snd] in E1. rewrite E1. lia.
  - destruct (acquire_returns st) as (h & st1 & Ha).
    destruct (store_rejects (trace st1) h) as (e & Hs & He).
    destruct (reconnect_returns (log (Call h op) st1)) as (st2 & Hr).
    destruct (IH fuel st2) as (st' & Hrun & Hcount); [lia|].
    exists st'. split.
    + assert (Hz : le_zero (BInt (Z.of_nat (S n))) = false).
      { unfold le_zero, toNumber. apply Z.leb_gt. lia. }
      rewrite (executor_retries _ _ _ _ _ fuel _ _ _ _ _ _ Ha Hs He Hr Hz).
      by rewrite nextBudget_succ.
    + rewrite Hcount.
      pose proof (extends_quiet_attempts _ _ (reconnect_quiet (log (Call h op) st1))) as E2.
      rewrite Hr in E2; cbn [snd] in E2. rewrite E2, attempts_log_call.
      pose proof (extends_quiet_attempts _ _ (acquire_quiet st)) as E1.
      rewrite Ha in E1; cbn [snd] in E1. rewrite E1. lia.
Qed.
End ExecutorRuns.

(** ** The source functions are instances of the skeleton *)

Lemma sql_internalQuery_executor config w fuel :
  forall query retry st,
    CouchbaseSql.internalQuery config w fuel query retry st =
    executor w (maxRetries config) CouchbaseSql.this_cluster
      (CQuery (sql query)) CouchbaseSql.connect_unawaited fuel retry st.
Proof.
  induction fuel as [|fuel IH]; intros query retry st; simpl; [done|].
  unfold bind, try_catch, CouchbaseSql.this_cluster,
    CouchbaseSql.connect_unawaited, ret; cbv beta iota.
  destruct (storeCall w (CouchbaseSql.cluster (self st)) (CQuery (sql query)) st)
    as [[r|e|] st2]; try done.
  destruct (isRetryable e); [|done].
  destruct (le_zero retry); [done|]. rewrite IH. reflexivity.
Qed.

Lemma kv_internalQuery_executor config w fuel :
  forall query retry st,
    CouchbaseKv.internalQuery config w fuel query retry st =
    executor w (maxRetries config) (CouchbaseKv.connect w)
      (CQuery (sql query)) CouchbaseKv.connect_unawaited fuel retry st.
Proof.
  induction fuel as [|fuel IH]; intros query retry st; simpl; [done|].
  unfold bind, try_catch; cbv beta iota.
  destruct (CouchbaseKv.connect w st) as [[h|e|] st1]; try done.
  destruct (storeCall w h (CQuery (sql query)) st1) as [[r|e|] st2]; try done.
  destruct (isRetryable e); [|done].
  destruct (CouchbaseKv.connect_unawaited st2) as [[[]|e'|] st3]; try done.
  destruct (le_zero retry); [done|]. rewrite IH. reflexivity.
Qed.

Lemma kv_internalKeyValueStatement_executor config w fuel :
  forall key v deletion retry st,
    CouchbaseKv.internalKeyValueStatement config w fuel key v deletion retry st =
    executor w (maxRetries config) (CouchbaseKv.connect w)
      (kvCall key v deletion) CouchbaseKv.connect_unawaited fuel retry st.
Proof.
  induction fuel as [|fuel IH]; intros key v deletion retry st; simpl; [done|].
  unfold bind, try_catch; cbv beta iota.
  destruct (CouchbaseKv.connect w st) as [[h|e|] st1]; try done.
  assert (Hop : (if negb deletion
                 then if negb (truthy v) then storeCall w h (CGet key)
                      else storeCall w h (CUpsert key v)
                 else storeCall w h (CRemove key)) st1
                = storeCall w h (kvCall key v deletion) st1).
  { unfold kvCall. by destruct deletion, (truthy v). }
  rewrite Hop.
  destruct (storeCall w h (kvCall key v deletion) st1) as [[r|e|] st2]; try done.
  destruct (isRetryable e); [|done].
  destruct (CouchbaseKv.connect_unawaited st2) as [[[]|e'|] st3]; try done.
  destruct (le_zero retry); [done|]. rewrite IH. reflexivity.
Qed.

(** ** [connect] in the two revisions *)

Lemma kv_connect_accepted w st :
  handshake w (trace st) = None ->
  CouchbaseKv.connect w st =
    (Return (handshakes (trace st)), kv_connected (handshakes (trace st)) st).
Proof.
  intros Hh. unfold CouchbaseKv.connect, bind, sdkConnect. by rewrite Hh.
Qed.

Lemma kv_connect_rejected w st e :
  handshake w (trace st) = Some e ->
  CouchbaseKv.connect w st =
    (Throw e, log (Handshake (handshakes (trace st))) st).
Proof.
  intros Hh. unfold CouchbaseKv.connect, bind, sdkConnect. by rewrite Hh.
Qed.

Lemma kv_connect_unawaited_eq st :
  CouchbaseKv.connect_unawaited st =
    (Return tt, kv_reconnecting (handshakes (trace st)) st).
Proof. reflexivity. Qed.

Lemma kv_connect_quiet w st :
  extends quiet st (snd (CouchbaseKv.connect w st)).
Proof.
  exists [Handshake (handshakes (trace st))].
  split; [|by repeat constructor].
  unfold CouchbaseKv.connect, bind, sdkConnect.
  by destruct (handshake w (trace st)).
Qed.

Lemma kv_connect_unawaited_quiet st :
  extends quiet st (snd (CouchbaseKv.connect_unawaited st)).
Proof.
  exists [Handshake (handshakes (trace st))].
  split; [done | by repeat constructor].
Qed.

Lemma sql_this_cluster_quiet st :
  extends quiet st (snd (CouchbaseSql.this_cluster st)).
Proof. apply extends_refl. Qed.

Lemma sql_connect_unawaited_quiet st :
  extends quiet st (snd (CouchbaseSql.connect_unawaited st)).
Proof. apply extends_refl. Qed.

(** ** The error classifier *)

Lemma includes_retryErrorCodes m :
  includes retryErrorCodes m = true <->
  m = "107" \/ m = "100" \/ m = "170" \/ m = "201".
Proof.
  unfold retryErrorCodes; cbn [includes].
  destruct (String.eqb_spec "107" m) as [<-|N1]; [by intuition|].
  destruct (String.eqb_spec "100" m) as [<-|N2]; [by intuition|].
  destruct (String.eqb_spec "170" m) as [<-|N3]; [by intuition|].
  destruct (String.eqb_spec "201" m) as [<-|N4]; [by intuition|].
  split; [done|]. intros [E|[E|[E|E]]]; congruence.
Qed.

(** C7. A caught failure is classified Retryable exactly when its message
    is one of the codes "107", "100", "170", "201" or is the literal
    "parent cluster object has been closed"; every other failure is Fatal.
    The message is [err.message] for an [Error] and [String(err)] for any
    other thrown value. *)
Theorem classifier_retryable_iff (err : value) :
  (classify err = Retryable <->
     messageOf err = "107" \/ messageOf err = "100" \/
     messageOf err = "170" \/ messageOf err = "201" \/
     messageOf err = "parent cluster object has been closed") /\
  (classify err = Fatal <-> classify err <> Retryable) /\
  (classify err = Retryable <-> isRetryable err = true) /\
  messageOf err =
    match err with VError message => message | _ => toString err end.
Proof.
  assert (Hiff : isRetryable err = true <->
     messageOf err = "107" \/ messageOf err = "100" \/
     messageOf err = "170" \/ messageOf err = "201" \/
     messageOf err = "parent cluster object has been closed").
  { unfold isRetryable. cbv zeta. rewrite orb_true_iff, includes_retryErrorCodes.
    unfold closedClusterMessage.
    destruct (String.eqb_spec (messageOf err)
                "parent cluster object has been closed") as [E|N].
    - rewrite E. by intuition.
    - split; [intros [H|H]; [tauto | discriminate] | tauto]. }
  assert (Hc : classify err = Retryable <-> isRetryable err = true).
  { unfold classify. by destruct (isRetryable err). }
  repeat split.
  - intros H. by apply Hiff, Hc.
  - intros H. by apply Hc, Hiff.
  - intros H. by rewrite H.
  - unfold classify. by destruct (isRetryable err).
  - apply Hc.
  - apply Hc.
  - by destruct err.
Qed.

Example classifier_examples :
  classify (VError "107") = Retryable /\
  classify (VNum 107) = Retryable /\
  classify (VStr "parent cluster object has been closed") = Retryable /\
  classify (VArr [VStr "201"]) = Retryable /\
  classify (VError "1070") = Fatal /\
  classify (VError " 107") = Fatal /\
  classify (VError "syntax error") = Fatal /\
  classify VUndefined = Fatal /\
  classify (VNum 7) = Fatal.
Proof. repeat split; reflexivity. Qed.

(** ** Exhausting the budget *)

Lemma kv_connect_returns w :
  (forall tr, handshake w tr = None) ->
  forall st, exists h st1, CouchbaseKv.connect w st = (Return h, st1).
Proof. intros Hh st. do 2 eexists. by apply kv_connect_accepted. Qed.

Lemma kv_connect_unawaited_returns st :
  exists st1, CouchbaseKv.connect_unawaited st = (Return tt, st1).
Proof. eexists. apply kv_connect_unawaited_eq. Qed.

(** C1, as stated, fails for the key-value revision: [connect()] is awaited
    before every attempt, outside the [try].  Here the cluster accepts the
    first two handshakes (the one awaited before the first attempt and the
    un-awaited one of the [catch] block) and refuses the later ones, and
    every call is rejected with code "107": with a budget of 3 the run ends
    after one attempt, not four, and what it raises is the refusal of the
    handshake awaited before the retry, not the terminal failure. *)
Lemma refused_handshake_counterexample :
  let w := refusing_after 2 (VError "cluster unreachable") (VError "107") in
  let run := CouchbaseKv.internalQuery (configured (BInt 3)) w 5 select1
               (BInt (Z.of_nat 3)) kv_new in
  (forall tr h c, exists e, store w tr h c = Reject e /\ isRetryable e = true) /\
  fst run = Throw (VError "cluster unreachable") /\
  fst run <> Throw maxRetriesExceeded /\
  trace (snd run) = [Handshake 0%nat; Call 0%nat (CQuery "SELECT 1");
                     Handshake 1%nat; Handshake 2%nat] /\
  attempts (trace (snd run)) = 1%nat /\
  attempts (trace (snd run)) <> (attempts (trace kv_new) + (3 + 1))%nat.
Proof.
  cbv zeta. split.
  { intros tr h c. exists (VError "107"). split; reflexivity. }
  repeat split; try reflexivity; vm_compute; discriminate.
Qed.

(** C1, amended.  Against a store that rejects every attempt with a
    Retryable error, and provided the cluster accepts every handshake, a
    budget of [n >= 0] makes the key-value [internalQuery] and
    [internalKeyValueStatement] perform exactly [n + 1] underlying attempts
    and then raise the terminal "max retries exceeded" failure.  The
    SQL-only [internalQuery], which starts no handshake, does so under the
    first condition alone. *)
Theorem retry_budget_spent_in_n_plus_one_attempts config w (n : nat) :
  rejects_every_call w ->
  (accepts_every_handshake w ->
   (forall fuel query st, (n < fuel)%nat ->
      exists st',
        CouchbaseKv.internalQuery config w fuel query (BInt (Z.of_nat n)) st
          = (Throw maxRetriesExceeded, st') /\
        attempts (trace st') = (attempts (trace st) + (n + 1))%nat) /\
   (forall fuel key v deletion st, (n < fuel)%nat ->
      exists st',
        CouchbaseKv.internalKeyValueStatement config w fuel key v deletion
          (BInt (Z.of_nat n)) st = (Throw maxRetriesExceeded, st') /\
        attempts (trace st') = (attempts (trace st) + (n + 1))%nat)) /\
  (forall fuel query st, (n < fuel)%nat ->
     exists st',
       CouchbaseSql.internalQuery config w fuel query (BInt (Z.of_nat n)) st
         = (Throw maxRetriesExceeded, st') /\
       attempts (trace st') = (attempts (trace st) + (n + 1))%nat).
Proof.
  intros Hs. split; [intros Hh; split|].
  - intros fuel query st Hf. rewrite kv_internalQuery_executor.
    destruct (executor_exhausts w (maxRetries config) (CouchbaseKv.connect w)
                (CQuery (sql query)) CouchbaseKv.connect_unawaited
                (kv_connect_quiet w) kv_connect_unawaited_quiet
                (kv_connect_returns w Hh) kv_connect_unawaited_returns
                (fun tr h => Hs tr h _) n fuel st Hf) as (st' & E & C).
    exists st'. split; [exact E | lia].
  - intros fuel key v deletion st Hf.
    rewrite kv_internalKeyValueStatement_executor.
    destruct (executor_exhausts w (maxRetries config) (CouchbaseKv.connect w)
                (kvCall key v deletion) CouchbaseKv.connect_unawaited
                (kv_connect_quiet w) kv_connect_unawaited_quiet
                (kv_connect_returns w Hh) kv_connect_unawaited_returns
                (fun tr h => Hs tr h _) n fuel st Hf) as (st' & E & C).
    exists st'. split; [exact E | lia].
  - intros fuel query st Hf. rewrite sql_internalQuery_executor.
    destruct (executor_exhausts w (maxRetries config) CouchbaseSql.this_cluster
                (CQuery (sql query)) CouchbaseSql.connect_unawaited
                sql_this_cluster_quiet sql_connect_unawaited_quiet
                (fun st => ex_intro _ _ (ex_intro _ st eq_refl))
                (fun st => ex_intro _ st eq_refl)
                (fun tr h => Hs tr h _) n fuel st Hf) as (st' & E & C).
    exists st'. split; [exact E | lia].
Qed.

Lemma retry_budget_spent_witness :
  rejects_every_call (rejecting (VError "107")) /\
  accepts_every_handshake (rejecting (VError "107")) /\
  exists st',
    CouchbaseKv.internalQuery (configured (BInt 2)) (rejecting (VError "107"))
      3 select1 (BInt (Z.of_nat 2)) kv_new = (Throw maxRetriesExceeded, st') /\
    attempts (trace st') = (attempts (trace kv_new) + (2 + 1))%nat.
Proof.
  assert (Hs : rejects_every_call (rejecting (VError "107"))).
  { intros tr h c. exists (VError "107"). split; reflexivity. }
  assert (Hh : accepts_every_handshake (rejecting (VError "107"))).
  { intros tr. reflexivity. }
  split; [exact Hs|]. split; [exact Hh|].
  assert (Hf : (2 < 3)%nat) by lia.
  exact (proj1 (proj1 (retry_budget_spent_in_n_plus_one_attempts
                         (configured (BInt 2)) (rejecting (VError "107"))
                         2%nat Hs) Hh) 3%nat select1 kv_new Hf).
Defined.

(** ** One round, revision by revision *)

Lemma handshakes_after_call tr h c :
  handshakes ((tr ++ [Handshake h]) ++ [Call h c]) = S (handshakes tr).
Proof. unfold handshakes. rewrite !count_app; simpl. lia. Qed.

Lemma trace_kv_after_rejection op st :
  trace (kv_after_rejection op st) =
    trace st ++ [Handshake (handshakes (trace st));
                 Call (handshakes (trace st)) op;
                 Handshake (S (handshakes (trace st)))].
Proof. unfold kv_after_rejection; simpl. by rewrite <- !app_assoc. Qed.

Section KvRounds.
Variable config : CouchbaseConfig.
Variable w : World.
Variable op : call.

Local Abbreviation run :=
  (executor w (maxRetries config) (CouchbaseKv.connect w) op
     CouchbaseKv.connect_unawaited).

Lemma kv_round_connect_rejected fuel retry st e :
  handshake w (trace st) = Some e ->
  run (S fuel) retry st = (Throw e, log (Handshake (handshakes (trace st))) st).
Proof.
  intros Hh. eapply executor_acquire_throws. by apply kv_connect_rejected.
Qed.

Lemma kv_round_resolves fuel retry st r :
  handshake w (trace st) = None ->
  store w (trace st ++ [Handshake (handshakes (trace st))])
    (handshakes (trace st)) op = Resolve r ->
  run (S fuel) retry st =
    (Return r, log (Call (handshakes (trace st)) op)
                 (kv_connected (handshakes (trace st)) st)).
Proof.
  intros Hh Hs. eapply executor_resolves; [by apply kv_connect_accepted | exact Hs].
Qed.

Lemma kv_round_fatal fuel retry st e :
  handshake w (trace st) = None ->
  store w (trace st ++ [Handshake (handshakes (trace st))])
    (handshakes (trace st)) op = Reject e ->
  isRetryable e = false ->
  run (S fuel) retry st =
    (Throw e, log (ConsoleLog "Unexpected error" e)
                (log (Call (handshakes (trace st)) op)
                   (kv_connected (handshakes (trace st)) st))).
Proof.
  intros Hh Hs He.
  eapply executor_fatal; [by apply kv_connect_accepted | exact Hs | exact He].
Qed.

Lemma kv_reconnect_after_call st :
  CouchbaseKv.connect_unawaited
    (log (Call (handshakes (trace st)) op)
       (kv_connected (handshakes (trace st)) st))
  = (Return tt, kv_after_rejection op st).
Proof.
  rewrite kv_connect_unawaited_eq. unfold kv_after_rejection.
  cbv zeta. f_equal. f_equal. unfold log, kv_connected; simpl.
  apply handshakes_after_call.
Qed.

Lemma kv_round_exhausted fuel retry st e :
  handshake w (trace st) = None ->
  store w (trace st ++ [Handshake (handshakes (trace st))])
    (handshakes (trace st)) op = Reject e ->
  isRetryable e = true ->
  le_zero retry = true ->
  run (S fuel) retry st =
    (Throw maxRetriesExceeded, log (ConsoleError e) (kv_after_rejection op st)).
Proof.
  intros Hh Hs He Hz.
  eapply executor_exhausted;
    [by apply kv_connect_accepted | exact Hs | exact He
    | apply kv_reconnect_after_call | exact Hz].
Qed.

Lemma kv_round_retries fuel retry st e :
  handshake w (trace st) = None ->
  store w (trace st ++ [Handshake (handshakes (trace st))])
    (handshakes (trace st)) op = Reject e ->
  isRetryable e = true ->
  le_zero retry = false ->
  run (S fuel) retry st =
    run fuel (nextBudget (maxRetries config) retry) (kv_after_rejection op st).
Proof.
  intros Hh Hs He Hz.
  eapply executor_retries;
    [by apply kv_connect_accepted | exact Hs | exact He
    | apply kv_reconnect_after_call | exact Hz].
Qed.
End KvRounds.

Section SqlRounds.
Variable config : CouchbaseConfig.
Variable w : World.
Variable op : call.

Local Abbreviation run :=
  (executor w (maxRetries config) CouchbaseSql.this_cluster op
     CouchbaseSql.connect_unawaited).

Lemma sql_round_resolves fuel retry st r :
  store w (trace st) (CouchbaseSql.cluster (self st)) op = Resolve r ->
  run (S fuel) retry st =
    (Return r, log (Call (CouchbaseSql.cluster (self st)) op) st).
Proof. intros Hs. eapply executor_resolves; [reflexivity | exact Hs]. Qed.

Lemma sql_round_fatal fuel retry st e :
  store w (trace st) (CouchbaseSql.cluster (self st)) op = Reject e ->
  isRetryable e = false ->
  run (S fuel) retry st =
    (Throw e, log (ConsoleLog "Unexpected error" e)
                (log (Call (CouchbaseSql.cluster (self st)) op) st)).
Proof.
  intros Hs He. eapply executor_fatal; [reflexivity | exact Hs | exact He].
Qed.

Lemma sql_round_exhausted fuel retry st e :
  store w (trace st) (CouchbaseSql.cluster (self st)) op = Reject e ->
  isRetryable e = true ->
  le_zero retry = true ->
  run (S fuel) retry st =
    (Throw maxRetriesExceeded,
     log (ConsoleError e) (log (Call (CouchbaseSql.cluster (self st)) op) st)).
Proof.
  intros Hs He Hz.
  eapply executor_exhausted;
    [reflexivity | exact Hs | exact He | reflexivity | exact Hz].
Qed.

Lemma sql_round_retries fuel retry st e :
  store w (trace st) (CouchbaseSql.cluster (self st)) op = Reject e ->
  isRetryable e = true ->
  le_zero retry = false ->
  run (S fuel) retry st =
    run fuel (nextBudget (maxRetries config) retry)
      (log (Call (CouchbaseSql.cluster (self st)) op) st).
Proof.
  intros Hs He Hz.
  eapply executor_retries;
    [reflexivity | exact Hs | exact He | reflexivity | exact Hz].
Qed.
End SqlRounds.

(** ** Fatal failures *)

Lemma classify_Fatal e : classify e = Fatal -> isRetryable e = false.
Proof. unfold classify. by destruct (isRetryable e). Qed.

Lemma classify_Retryable e : classify e = Retryable -> isRetryable e = true.
Proof. unfold classify. by destruct (isRetryable e). Qed.

(** C6. When the attempt of an invocation is rejected with an error the
    classifier takes for Fatal, that invocation makes exactly this one
    attempt, starts no handshake after it, logs the error and re-raises the
    very same error value.  In the key-value revision the only handshake of
    the round is the one awaited before the attempt. *)
Theorem fatal_failure_is_rethrown_at_once config w fuel retry e :
  classify e = Fatal ->
  (forall query st,
     handshake w (trace st) = None ->
     store w (trace st ++ [Handshake (handshakes (trace st))])
       (handshakes (trace st)) (CQuery (sql query)) = Reject e ->
     exists st',
       CouchbaseKv.internalQuery config w (S fuel) query retry st = (Throw e, st') /\
       trace st' = trace st ++ [Handshake (handshakes (trace st));
                                Call (handshakes (trace st)) (CQuery (sql query));
                                ConsoleLog "Unexpected error" e] /\
       attempts (trace st') = S (attempts (trace st))) /\
  (forall key v deletion st,
     handshake w (trace st) = None ->
     store w (trace st ++ [Handshake (handshakes (trace st))])
       (handshakes (trace st)) (kvCall key v deletion) = Reject e ->
     exists st',
       CouchbaseKv.internalKeyValueStatement config w (S fuel) key v deletion
         retry st = (Throw e, st') /\
       trace st' = trace st ++ [Handshake (handshakes (trace st));
                                Call (handshakes (trace st)) (kvCall key v deletion);
                                ConsoleLog "Unexpected error" e] /\
       attempts (trace st') = S (attempts (trace st))) /\
  (forall query st,
     store w (trace st) (CouchbaseSql.cluster (self st)) (CQuery (sql query))
       = Reject e ->
     exists st',
       CouchbaseSql.internalQuery config w (S fuel) query retry st = (Throw e, st') /\
       trace st' = trace st ++ [Call (CouchbaseSql.cluster (self st)) (CQuery (sql query));
                                ConsoleLog "Unexpected error" e] /\
       attempts (trace st') = S (attempts (trace st)) /\
       handshakes (trace st') = handshakes (trace st)).
Proof.
  intros He%classify_Fatal. repeat split.
  - intros query st Hh Hs. eexists. split; [|split].
    + rewrite kv_internalQuery_executor. by apply kv_round_fatal.
    + trace_eq.
    + simpl. count_events.
  - intros key v deletion st Hh Hs. eexists. split; [|split].
    + rewrite kv_internalKeyValueStatement_executor. by apply kv_round_fatal.
    + trace_eq.
    + simpl. count_events.
  - intros query st Hs. eexists. split; [|split; [|split]].
    + rewrite sql_internalQuery_executor. by apply sql_round_fatal.
    + trace_eq.
    + simpl. count_events.
    + simpl. count_events.
Qed.

Lemma fatal_failure_witness :
  classify (VError "syntax error") = Fatal /\
  exists st',
    CouchbaseKv.internalQuery (configured (BInt 3))
      (rejecting (VError "syntax error")) 1 select1 (BInt 3) kv_new
      = (Throw (VError "syntax error"), st') /\
    trace st' = [Handshake O; Call O (CQuery "SELECT 1");
                 ConsoleLog "Unexpected error" (VError "syntax error")] /\
    attempts (trace st') = 1%nat.
Proof.
  split; [reflexivity|].
  apply (fatal_failure_is_rethrown_at_once (configured (BInt 3))
           (rejecting (VError "syntax error")) O (BInt 3)
           (VError "syntax error") eq_refl);
    reflexivity.
Defined.

(** ** The terminal failure *)

Lemma maxRetriesExceeded_not_retryable e :
  isRetryable e = true -> maxRetriesExceeded <> e.
Proof. intros He <-. discriminate He. Qed.

(** C10. When an attempt is rejected with a Retryable error [e] and the
    budget is exhausted ([retry <= 0]), the caller receives a new [Error]
    whose message is exactly "Couchbase max retries exceeded".  The error
    [e] is written to the console and is not the value raised; the raised
    value carries a message and nothing else. *)
Theorem exhaustion_raises_new_error config w fuel retry e :
  isRetryable e = true ->
  le_zero retry = true ->
  maxRetriesExceeded = VError "Couchbase max retries exceeded" /\
  maxRetriesExceeded <> e /\
  (forall query st,
     handshake w (trace st) = None ->
     store w (trace st ++ [Handshake (handshakes (trace st))])
       (handshakes (trace st)) (CQuery (sql query)) = Reject e ->
     exists st',
       CouchbaseKv.internalQuery config w (S fuel) query retry st
         = (Throw (VError "Couchbase max retries exceeded"), st') /\
       last (trace st') = Some (ConsoleError e)) /\
  (forall key v deletion st,
     handshake w (trace st) = None ->
     store w (trace st ++ [Handshake (handshakes (trace st))])
       (handshakes (trace st)) (kvCall key v deletion) = Reject e ->
     exists st',
       CouchbaseKv.internalKeyValueStatement config w (S fuel) key v deletion
         retry st = (Throw (VError "Couchbase max retries exceeded"), st') /\
       last (trace st') = Some (ConsoleError e)) /\
  (forall query st,
     store w (trace st) (CouchbaseSql.cluster (self st)) (CQuery (sql query))
       = Reject e ->
     exists st',
       CouchbaseSql.internalQuery config w (S fuel) query retry st
         = (Throw (VError "Couchbase max retries exceeded"), st') /\
       last (trace st') = Some (ConsoleError e)).
Proof.
  intros He Hz. split; [reflexivity|]. split.
  { by apply maxRetriesExceeded_not_retryable. }
  repeat split.
  - intros query st Hh Hs. eexists. split.
    + rewrite kv_internalQuery_executor. by eapply kv_round_exhausted.
    + unfold log; simpl. apply last_snoc.
  - intros key v deletion st Hh Hs. eexists. split.
    + rewrite kv_internalKeyValueStatement_executor.
      by eapply kv_round_exhausted.
    + unfold log; simpl. apply last_snoc.
  - intros query st Hs. eexists. split.
    + rewrite sql_internalQuery_executor. by eapply sql_round_exhausted.
    + unfold log; simpl. apply last_snoc.
Qed.

Lemma exhaustion_raises_new_error_witness :
  isRetryable (VError "170") = true /\
  le_zero (BInt 0) = true /\
  exists st',
    CouchbaseKv.internalKeyValueStatement (configured (BInt 0))
      (rejecting (VError "170")) 1 "k1" (VStr "v") false (BInt 0) kv_new
      = (Throw (VError "Couchbase max retries exceeded"), st') /\
    last (trace st') = Some (ConsoleError (VError "170")).
Proof.
  split; [reflexivity|]. split; [reflexivity|].
  apply (exhaustion_raises_new_error (configured (BInt 0))
           (rejecting (VError "170")) O (BInt 0) (VError "170")
           eq_refl eq_refl);
    reflexivity.
Defined.

(** ** A budget of zero *)

(** C3, as stated, fails: with [maxRetries = 0] and a first attempt rejected
    with code "107", the key-value [internalQuery] raises the terminal
    failure only after its [catch] block has called [connect()] once more,
    so one handshake is started after the failed attempt. *)
Lemma no_reconnect_on_exhaustion_counterexample :
  let run := CouchbaseKv.internalQuery (configured (BInt 0))
               (rejecting (VError "107")) 1 select1 (BInt 0) kv_new in
  fst run = Throw maxRetriesExceeded /\
  trace (snd run) = [Handshake 0%nat; Call 0%nat (CQuery "SELECT 1");
                     Handshake 1%nat; ConsoleError (VError "107")] /\
  handshakes (after_first_call (trace (snd run))) = 1%nat /\
  handshakes (after_first_call (trace (snd run))) <> 0%nat.
Proof. cbv zeta. repeat split; try reflexivity. vm_compute. discriminate. Qed.

(** C3, amended. With [maxRetries = 0], when the first attempt is rejected
    with one of the transient codes, the terminal failure is raised after
    that single attempt.  [connect()] is still called once on the way,
    before the budget is tested: in the key-value revision it starts one
    more handshake, which nobody awaits; in the SQL-only revision it starts
    none. *)
Theorem zero_budget_fails_after_one_attempt config w fuel query e :
  maxRetries config = BInt 0 ->
  includes retryErrorCodes (messageOf e) = true ->
  (forall st,
     handshake w (trace st) = None ->
     store w (trace st ++ [Handshake (handshakes (trace st))])
       (handshakes (trace st)) (CQuery (sql query)) = Reject e ->
     exists st',
       CouchbaseKv.internalQuery config w (S fuel) query (maxRetries config) st
         = (Throw maxRetriesExceeded, st') /\
       trace st' = trace st ++ [Handshake (handshakes (trace st));
                                Call (handshakes (trace st)) (CQuery (sql query));
                                Handshake (S (handshakes (trace st)));
                                ConsoleError e] /\
       CouchbaseKv.pending (self st') =
         CouchbaseKv.pending (self st) ++ [S (handshakes (trace st))]) /\
  (forall st,
     store w (trace st) (CouchbaseSql.cluster (self st)) (CQuery (sql query))
       = Reject e ->
     exists st',
       CouchbaseSql.internalQuery config w (S fuel) query (maxRetries config) st
         = (Throw maxRetriesExceeded, st') /\
       trace st' = trace st ++ [Call (CouchbaseSql.cluster (self st)) (CQuery (sql query));
                                ConsoleError e] /\
       self st' = self st).
Proof.
  intros Hm Hc.
  assert (He : isRetryable e = true).
  { unfold isRetryable. cbv zeta. by rewrite Hc. }
  rewrite Hm. split.
  - intros st Hh Hs. eexists. split; [|split].
    + rewrite kv_internalQuery_executor. by eapply kv_round_exhausted.
    + trace_eq.
    + reflexivity.
  - intros st Hs. eexists. split; [|split].
    + rewrite sql_internalQuery_executor. by eapply sql_round_exhausted.
    + trace_eq.
    + reflexivity.
Qed.

Lemma zero_budget_witness :
  maxRetries (configured (BInt 0)) = BInt 0 /\
  includes retryErrorCodes (messageOf (VError "201")) = true /\
  exists st',
    CouchbaseKv.internalQuery (configured (BInt 0)) (rejecting (VError "201"))
      1 select1 (maxRetries (configured (BInt 0))) kv_new
      = (Throw maxRetriesExceeded, st') /\
    trace st' = trace kv_new ++ [Handshake (handshakes (trace kv_new));
                                 Call (handshakes (trace kv_new))
                                   (CQuery (sql select1));
                                 Handshake (S (handshakes (trace kv_new)));
                                 ConsoleError (VError "201")] /\
    CouchbaseKv.pending (self st') =
      CouchbaseKv.pending (self kv_new) ++ [S (handshakes (trace kv_new))].
Proof.
  split; [reflexivity|]. split; [reflexivity|].
  exact (proj1 (zero_budget_fails_after_one_attempt (configured (BInt 0))
                  (rejecting (VError "201")) O select1 (VError "201")
                  eq_refl eq_refl) kv_new eq_refl eq_refl).
Defined.

(** ** A falsy budget *)

Lemma falsy_budget_cases retry :
  truthy_budget retry = false ->
  (le_zero retry = true <-> retry = BInt 0 \/ retry = BNull) /\
  (le_zero retry = false <-> retry = BNaN \/ retry = BUndefined).
Proof.
  destruct retry as [z| | |]; unfold truthy_budget, le_zero, toNumber.
  - intros Hz%negb_false_iff%Z.eqb_eq. subst z. simpl.
    split; split; try done; [by left | intros [?|?]; done].
  - intros _. split; split; try done; [intros [?|?]; done | by left].
  - intros _. split; split; try done; [intros [?|?]; done | by right].
  - intros _. simpl. split; split; try done; [by right | intros [?|?]; done].
Qed.

Lemma nextBudget_falsy limit retry :
  truthy_budget retry = false -> nextBudget limit retry = limit.
Proof. unfold nextBudget. by intros ->. Qed.

(** C2, as stated, fails: a budget of 0 is falsy, yet after a Retryable
    failure the executor raises the terminal failure after one attempt.
    Had it instead retried with the configured [maxRetries = 3], the second
    attempt of this world would have returned the rows. *)
Lemma falsy_zero_budget_counterexample :
  let config := configured (BInt 3) in
  let w := failing_once (VError "107") no_rows in
  let rejected := kv_after_rejection (CQuery "SELECT 1") kv_new in
  truthy_budget (BInt 0) = false /\
  isRetryable (VError "107") = true /\
  CouchbaseKv.internalQuery config w 5 select1 (BInt 0) kv_new
    = (Throw maxRetriesExceeded, log (ConsoleError (VError "107")) rejected) /\
  attempts (trace (log (ConsoleError (VError "107")) rejected)) = 1%nat /\
  fst (CouchbaseKv.internalQuery config w 4 select1 (maxRetries config) rejected)
    = Return no_rows /\
  CouchbaseKv.internalQuery config w 5 select1 (BInt 0) kv_new
    <> CouchbaseKv.internalQuery config w 4 select1 (maxRetries config) rejected.
Proof.
  cbv zeta. repeat split; try reflexivity.
  intros H. apply (f_equal fst) in H. vm_compute in H. discriminate H.
Qed.

(** C2, amended. When the budget is falsy and the attempt is rejected with
    a Retryable error, the budget test [retry <= 0] comes first: a budget
    of 0 or [null] raises the terminal failure without a retry; only a
    budget that is falsy and not [<= 0], that is NaN or [undefined], makes
    the executor retry with the budget reset to the configured
    [maxRetries]. *)
Theorem falsy_budget_resets_unless_exhausted config w fuel retry e :
  truthy_budget retry = false ->
  isRetryable e = true ->
  ((retry = BInt 0 \/ retry = BNull) \/ (retry = BNaN \/ retry = BUndefined)) /\
  (forall query st,
     handshake w (trace st) = None ->
     store w (trace st ++ [Handshake (handshakes (trace st))])
       (handshakes (trace st)) (CQuery (sql query)) = Reject e ->
     (retry = BInt 0 \/ retry = BNull ->
        CouchbaseKv.internalQuery config w (S fuel) query retry st =
          (Throw maxRetriesExceeded,
           log (ConsoleError e) (kv_after_rejection (CQuery (sql query)) st))) /\
     (retry = BNaN \/ retry = BUndefined ->
        CouchbaseKv.internalQuery config w (S fuel) query retry st =
          CouchbaseKv.internalQuery config w fuel query (maxRetries config)
            (kv_after_rejection (CQuery (sql query)) st))) /\
  (forall key v deletion st,
     handshake w (trace st) = None ->
     store w (trace st ++ [Handshake (handshakes (trace st))])
       (handshakes (trace st)) (kvCall key v deletion) = Reject e ->
     (retry = BInt 0 \/ retry = BNull ->
        CouchbaseKv.internalKeyValueStatement config w (S fuel) key v deletion
          retry st =
          (Throw maxRetriesExceeded,
           log (ConsoleError e) (kv_after_rejection (kvCall key v deletion) st))) /\
     (retry = BNaN \/ retry = BUndefined ->
        CouchbaseKv.internalKeyValueStatement config w (S fuel) key v deletion
          retry st =
          CouchbaseKv.internalKeyValueStatement config w fuel key v deletion
            (maxRetries config) (kv_after_rejection (kvCall key v deletion) st))) /\
  (forall query st,
     store w (trace st) (CouchbaseSql.cluster (self st)) (CQuery (sql query))
       = Reject e ->
     (retry = BInt 0 \/ retry = BNull ->
        CouchbaseSql.internalQuery config w (S fuel) query retry st =
          (Throw maxRetriesExceeded,
           log (ConsoleError e)
             (log (Call (CouchbaseSql.cluster (self st)) (CQuery (sql query))) st))) /\
     (retry = BNaN \/ retry = BUndefined ->
        CouchbaseSql.internalQuery config w (S fuel) query retry st =
          CouchbaseSql.internalQuery config w fuel query (maxRetries config)
            (log (Call (CouchbaseSql.cluster (self st)) (CQuery (sql query))) st))).
Proof.
  intros Hf He. destruct (falsy_budget_cases retry Hf) as [Hle Hgt].
  split.
  { destruct (le_zero retry) eqn:Hz; [left; by apply Hle | right; by apply Hgt]. }
  repeat split.
  - intros Hz%Hle. rewrite kv_internalQuery_executor.
    by eapply kv_round_exhausted.
  - intros Hz%Hgt. rewrite !kv_internalQuery_executor.
    erewrite kv_round_retries by eassumption.
    by rewrite nextBudget_falsy.
  - intros Hz%Hle. rewrite kv_internalKeyValueStatement_executor.
    by eapply kv_round_exhausted.
  - intros Hz%Hgt. rewrite !kv_internalKeyValueStatement_executor.
    erewrite kv_round_retries by eassumption.
    by rewrite nextBudget_falsy.
  - intros Hz%Hle. rewrite sql_internalQuery_executor.
    by eapply sql_round_exhausted.
  - intros Hz%Hgt. rewrite !sql_internalQuery_executor.
    erewrite sql_round_retries by eassumption.
    by rewrite nextBudget_falsy.
Qed.

Lemma falsy_budget_witness :
  truthy_budget BUndefined = false /\
  isRetryable (VError "100") = true /\
  CouchbaseKv.internalQuery (configured (BInt 3)) (rejecting (VError "100"))
    5 select1 BUndefined kv_new =
  CouchbaseKv.internalQuery (configured (BInt 3)) (rejecting (VError "100"))
    4 select1 (maxRetries (configured (BInt 3)))
    (kv_after_rejection (CQuery (sql select1)) kv_new).
Proof.
  split; [reflexivity|]. split; [reflexivity|].
  destruct (falsy_budget_resets_unless_exhausted (configured (BInt 3))
              (rejecting (VError "100")) 4 BUndefined (VError "100")
              eq_refl eq_refl) as (_ & Hq & _).
  destruct (Hq select1 kv_new eq_refl eq_refl) as [_ Hreset].
  apply Hreset. right. reflexivity.
Defined.

(** ** [connect] called twice *)

Lemma handshakes_kv_connected st :
  handshakes (trace (kv_connected (handshakes (trace st)) st))
    = S (handshakes (trace st)).
Proof. unfold kv_connected; simpl. apply handshakes_snoc. Qed.

Lemma trace_kv_connected h st :
  trace (kv_connected h st) = trace st ++ [Handshake h].
Proof. reflexivity. Qed.

(** C4, as stated, fails.  In the key-value revision two calls of
    [connect()] do start two handshakes and leave the second handle in the
    fields, but an operation issued afterwards does not run on that
    handle: it starts a third handshake and makes its attempt on that
    one. *)
Lemma connect_twice_counterexample :
  let w := resolving no_rows in
  CouchbaseKv.bucket
    (self (snd (bind (CouchbaseKv.connect w) (fun _ => CouchbaseKv.connect w)
                  kv_new))) = Some 1%nat /\
  trace (snd (bind (CouchbaseKv.connect w) (fun _ =>
              bind (CouchbaseKv.connect w) (fun _ =>
              CouchbaseKv.internalQuery (configured (BInt 3)) w 1 select1
                (BInt 3))) kv_new))
    = [Handshake 0%nat; Handshake 1%nat; Handshake 2%nat;
       Call 2%nat (CQuery "SELECT 1")].
Proof. repeat split; reflexivity. Qed.

(** An operation issued after two calls of [connect()]: it connects a
    third time and makes its attempt on that third handle. *)
Lemma kv_operation_after_two_connects config w op fuel retry
    (f : M CouchbaseKv.fields obj) :
  (forall st, f st = executor w (maxRetries config) (CouchbaseKv.connect w) op
                       CouchbaseKv.connect_unawaited (S fuel) retry st) ->
  forall st r,
    handshake w (trace st) = None ->
    handshake w (trace st ++ [Handshake (handshakes (trace st))]) = None ->
    handshake w (trace st ++ [Handshake (handshakes (trace st));
                              Handshake (S (handshakes (trace st)))]) = None ->
    store w (trace st ++ [Handshake (handshakes (trace st));
                          Handshake (S (handshakes (trace st)));
                          Handshake (S (S (handshakes (trace st))))])
      (S (S (handshakes (trace st)))) op = Resolve r ->
    exists st',
      bind (CouchbaseKv.connect w) (fun _ =>
      bind (CouchbaseKv.connect w) (fun _ => f)) st = (Return r, st') /\
      trace st' = trace st ++ [Handshake (handshakes (trace st));
                               Handshake (S (handshakes (trace st)));
                               Handshake (S (S (handshakes (trace st))));
                               Call (S (S (handshakes (trace st)))) op].
Proof.
  intros Hf st r H0 H1 H2 Hs.
  assert (Hn : forall h,
    handshakes (trace (kv_connected (S h) (kv_connected h st)))
      = S (S (handshakes (trace st)))).
  { intros h. unfold kv_connected; simpl. by rewrite !handshakes_snoc. }
  eexists. split.
  - unfold bind. rewrite kv_connect_accepted by exact H0.
    rewrite kv_connect_accepted by exact H1.
    rewrite handshakes_kv_connected, Hf.
    apply kv_round_resolves.
    + unfold kv_connected; simpl. by rewrite <- app_assoc.
    + rewrite Hn. unfold kv_connected; simpl. rewrite <- !app_assoc.
      exact Hs.
  - rewrite Hn. unfold log; simpl. rewrite <- !app_assoc. reflexivity.
Qed.

(** C4, amended.  In the key-value revision, two calls of [connect()] in
    succession start two separate handshakes, and the handle of the second
    replaces the first in the [cluster] and [bucket] fields; an operation
    issued afterwards calls [connect()] itself and makes its attempt on the
    handle of that newest handshake. *)
Theorem connect_twice_replaces_handle config w :
  (forall st,
     handshake w (trace st) = None ->
     handshake w (trace st ++ [Handshake (handshakes (trace st))]) = None ->
     exists st1 st2,
       CouchbaseKv.connect w st = (Return (handshakes (trace st)), st1) /\
       CouchbaseKv.connect w st1 = (Return (S (handshakes (trace st))), st2) /\
       CouchbaseKv.cluster (self st1) = Some (handshakes (trace st)) /\
       CouchbaseKv.bucket (self st1) = Some (handshakes (trace st)) /\
       CouchbaseKv.cluster (self st2) = Some (S (handshakes (trace st))) /\
       CouchbaseKv.bucket (self st2) = Some (S (handshakes (trace st))) /\
       trace st2 = trace st ++ [Handshake (handshakes (trace st));
                                Handshake (S (handshakes (trace st)))] /\
       handshakes (trace st2) = (handshakes (trace st) + 2)%nat) /\
  (forall fuel query retry st r,
     handshake w (trace st) = None ->
     handshake w (trace st ++ [Handshake (handshakes (trace st))]) = None ->
     handshake w (trace st ++ [Handshake (handshakes (trace st));
                               Handshake (S (handshakes (trace st)))]) = None ->
     store w (trace st ++ [Handshake (handshakes (trace st));
                           Handshake (S (handshakes (trace st)));
                           Handshake (S (S (handshakes (trace st))))])
       (S (S (handshakes (trace st)))) (CQuery (sql query)) = Resolve r ->
     exists st',
       bind (CouchbaseKv.connect w) (fun _ =>
       bind (CouchbaseKv.connect w) (fun _ =>
       CouchbaseKv.internalQuery config w (S fuel) query retry)) st
         = (Return r, st') /\
       trace st' = trace st ++ [Handshake (handshakes (trace st));
                                Handshake (S (handshakes (trace st)));
                                Handshake (S (S (handshakes (trace st))));
                                Call (S (S (handshakes (trace st))))
                                  (CQuery (sql query))]) /\
  (forall fuel key v deletion retry st r,
     handshake w (trace st) = None ->
     handshake w (trace st ++ [Handshake (handshakes (trace st))]) = None ->
     handshake w (trace st ++ [Handshake (handshakes (trace st));
                               Handshake (S (handshakes (trace st)))]) = None ->
     store w (trace st ++ [Handshake (handshakes (trace st));
                           Handshake (S (handshakes (trace st)));
                           Handshake (S (S (handshakes (trace st))))])
       (S (S (handshakes (trace st)))) (kvCall key v deletion) = Resolve r ->
     exists st',
       bind (CouchbaseKv.connect w) (fun _ =>
       bind (CouchbaseKv.connect w) (fun _ =>
       CouchbaseKv.internalKeyValueStatement config w (S fuel) key v deletion
         retry)) st
         = (Return r, st') /\
       trace st' = trace st ++ [Handshake (handshakes (trace st));
                                Handshake (S (handshakes (trace st)));
                                Handshake (S (S (handshakes (trace st))));
                                Call (S (S (handshakes (trace st))))
                                  (kvCall key v deletion)]).
Proof.
  split; [|split].
  - intros st H0 H1.
    exists (kv_connected (handshakes (trace st)) st),
           (kv_connected (S (handshakes (trace st)))
              (kv_connected (handshakes (trace st)) st)).
    split; [by apply kv_connect_accepted|]. split.
    { rewrite kv_connect_accepted by (by rewrite trace_kv_connected).
      by rewrite handshakes_kv_connected. }
    repeat split; try reflexivity.
    + trace_eq.
    + simpl. count_events.
  - intros fuel query retry.
    apply (kv_operation_after_two_connects config w _ fuel retry).
    intros st. apply kv_internalQuery_executor.
  - intros fuel key v deletion retry.
    apply (kv_operation_after_two_connects config w _ fuel retry).
    intros st. apply kv_internalKeyValueStatement_executor.
Qed.

Lemma connect_twice_witness :
  handshake (resolving no_rows) (trace kv_new) = None /\
  handshake (resolving no_rows)
    (trace kv_new ++ [Handshake (handshakes (trace kv_new))]) = None /\
  exists st1 st2,
    CouchbaseKv.connect (resolving no_rows) kv_new = (Return 0%nat, st1) /\
    CouchbaseKv.connect (resolving no_rows) st1 = (Return 1%nat, st2) /\
    CouchbaseKv.bucket (self st2) = Some 1%nat /\
    trace st2 = [Handshake 0%nat; Handshake 1%nat].
Proof.
  split; [reflexivity|]. split; [reflexivity|].
  destruct (connect_twice_replaces_handle (configured (BInt 3))
              (resolving no_rows)) as (Hkv & _).
  destruct (Hkv kv_new eq_refl eq_refl)
    as (st1 & st2 & E1 & E2 & _ & _ & _ & B2 & T2 & _).
  exists st1, st2. repeat split; assumption.
Defined.

(** ** The handle a retry runs on *)

Lemma attempts_follow_handshake_quiet tr e :
  attempts_follow_handshake tr -> quiet e ->
  attempts_follow_handshake (tr ++ [e]).
Proof.
  intros Htr He i h c Hi.
  apply lookup_app_Some in Hi as [Hi | [Hlen Hi]].
  - destruct (Htr i h c Hi) as (j & -> & Hj). exists j. split; [done|].
    by apply lookup_app_l_Some.
  - apply list_lookup_singleton_Some in Hi as [_ ->]. discriminate He.
Qed.

Lemma attempts_follow_handshake_call tr h c :
  attempts_follow_handshake tr -> last tr = Some (Handshake h) ->
  attempts_follow_handshake (tr ++ [Call h c]).
Proof.
  intros Htr Hl i h' c' Hi.
  apply lookup_app_Some in Hi as [Hi | [Hlen Hi]].
  - destruct (Htr i h' c' Hi) as (j & -> & Hj). exists j. split; [done|].
    by apply lookup_app_l_Some.
  - apply list_lookup_singleton_Some in Hi as [Hi E].
    injection E as <- <-.
    rewrite last_lookup in Hl.
    assert (length tr <> O).
    { intros E0. apply nil_length_inv in E0. subst tr. discriminate Hl. }
    exists (pred (length tr)). split; [lia|].
    by apply lookup_app_l_Some.
Qed.

Section FreshHandles.
Context {F : Type}.
Variable w : World.
Variable limit : budget.
Variable acquire : M F handle.
Variable op : call.
Variable reconnect : M F unit.

Local Abbreviation run := (executor w limit acquire op reconnect).

(** The handle is obtained by a handshake that is the last thing to have
    happened when [acquire] returns it. *)
Hypothesis acquire_handshake :
  forall st, attempts_follow_handshake (trace st) ->
    attempts_follow_handshake (trace (snd (acquire st))) /\
    forall h, fst (acquire st) = Return h ->
              last (trace (snd (acquire st))) = Some (Handshake h).
Hypothesis reconnect_keeps :
  forall st, attempts_follow_handshake (trace st) ->
    attempts_follow_handshake (trace (snd (reconnect st))).

Lemma executor_attempts_follow_handshake fuel :
  forall retry st,
    attempts_follow_handshake (trace st) ->
    attempts_follow_handshake (trace (snd (run fuel retry st))).
Proof.
  induction fuel as [|fuel IH]; intros retry st Hst; simpl; [exact Hst|].
  unfold bind, try_catch, storeCall.
  destruct (acquire_handshake st Hst) as [Ha Hlast].
  destruct (acquire st) as [[h|e|] st1]; simpl in Ha, Hlast; try exact Ha.
  assert (Hc : attempts_follow_handshake (trace (log (Call h op) st1))).
  { apply attempts_follow_handshake_call; [exact Ha | by apply Hlast]. }
  destruct (store w (trace st1) h op) as [r|e]; [exact Hc|].
  destruct (isRetryable e).
  - pose proof (reconnect_keeps _ Hc) as Hr.
    destruct (reconnect (log (Call h op) st1)) as [[[]|e'|] st2];
      simpl in Hr; try exact Hr.
    destruct (le_zero retry); simpl.
    + by apply attempts_follow_handshake_quiet.
    + by apply IH.
  - simpl. by apply attempts_follow_handshake_quiet.
Qed.
End FreshHandles.

Lemma kv_connect_handshake w st :
  attempts_follow_handshake (trace st) ->
  attempts_follow_handshake (trace (snd (CouchbaseKv.connect w st))) /\
  forall h, fst (CouchbaseKv.connect w st) = Return h ->
            last (trace (snd (CouchbaseKv.connect w st))) = Some (Handshake h).
Proof.
  intros Hst. destruct (handshake w (trace st)) as [e|] eqn:Hh.
  - rewrite (kv_connect_rejected w st e Hh). simpl. split; [|done].
    by apply attempts_follow_handshake_quiet.
  - rewrite (kv_connect_accepted w st Hh). simpl. split.
    + by apply attempts_follow_handshake_quiet.
    + intros h [= <-]. apply last_snoc.
Qed.

Lemma kv_connect_unawaited_keeps st :
  attempts_follow_handshake (trace st) ->
  attempts_follow_handshake (trace (snd (CouchbaseKv.connect_unawaited st))).
Proof. intros Hst. simpl. by apply attempts_follow_handshake_quiet. Qed.

(** In the key-value revision every attempt, the first one and each retry,
    is made on the handle of a handshake started directly before it. *)
Lemma kv_attempts_follow_handshake config w fuel retry st :
  attempts_follow_handshake (trace st) ->
  (forall query,
     attempts_follow_handshake
       (trace (snd (CouchbaseKv.internalQuery config w fuel query retry st)))) /\
  (forall key v deletion,
     attempts_follow_handshake
       (trace (snd (CouchbaseKv.internalKeyValueStatement config w fuel key v
                      deletion retry st)))).
Proof.
  intros Hst. split.
  - intros query. rewrite kv_internalQuery_executor.
    apply executor_attempts_follow_handshake;
      auto using kv_connect_handshake, kv_connect_unawaited_keeps.
  - intros key v deletion. rewrite kv_internalKeyValueStatement_executor.
    apply executor_attempts_follow_handshake;
      auto using kv_connect_handshake, kv_connect_unawaited_keeps.
Qed.

Lemma sql_connect_returns_constructor_handle (st : state CouchbaseSql.fields) :
  CouchbaseSql.connect st = (Return (CouchbaseSql.cluster (self st)), st).
Proof. reflexivity. Qed.

(** In the SQL-only revision no run of [internalQuery] starts a handshake
    or changes the instance: every attempt, the first one and each retry,
    is made on the handle held when the run began. *)
Lemma sql_never_reconnects config w fuel :
  forall query retry st,
    self (snd (CouchbaseSql.internalQuery config w fuel query retry st))
      = self st /\
    extends (fun e => isHandshake e = false /\
                      forall h c, e = Call h c -> h = CouchbaseSql.cluster (self st))
      st (snd (CouchbaseSql.internalQuery config w fuel query retry st)).
Proof.
  induction fuel as [|fuel IH]; intros query retry st.
  { split; [reflexivity | apply extends_refl]. }
  set (P := fun (s : state CouchbaseSql.fields) e =>
              isHandshake e = false /\
              forall h c, e = Call h c -> h = CouchbaseSql.cluster (self s)).
  set (c := CouchbaseSql.cluster (self st)).
  set (st1 := log (Call c (CQuery (sql query))) st).
  assert (Hcall : extends (P st) st st1).
  { apply extends_log. split; [done|]. by intros h c' [= <- _]. }
  assert (Hlog : forall (s : state CouchbaseSql.fields) e,
            isCall e = false -> isHandshake e = false ->
            extends (P st) s (log e s)).
  { intros s e Hc Hh. apply extends_log. split; [done|].
    intros h c' ->. discriminate Hc. }
  rewrite sql_internalQuery_executor.
  destruct (store w (trace st) c (CQuery (sql query))) as [r|e] eqn:Hs.
  { rewrite (sql_round_resolves config w _ fuel retry st r Hs). by split. }
  destruct (isRetryable e) eqn:He.
  - destruct (le_zero retry) eqn:Hz.
    + rewrite (sql_round_exhausted config w _ fuel retry st e Hs He Hz).
      split; [reflexivity|].
      eapply extends_trans; [exact Hcall | by apply Hlog].
    + rewrite (sql_round_retries config w _ fuel retry st e Hs He Hz).
      rewrite <- sql_internalQuery_executor. fold c. fold st1.
      destruct (IH query (nextBudget (maxRetries config) retry) st1)
        as [Hself Hext].
      split; [by rewrite Hself|].
      eapply extends_trans; [exact Hcall | exact Hext].
  - rewrite (sql_round_fatal config w _ fuel retry st e Hs He).
    split; [reflexivity|].
    eapply extends_trans; [exact Hcall | by apply Hlog].
Qed.


(** ** [read] *)


Lemma sql_read_after_executor config w getSqlQuery fuel query st r st2 :
  CouchbaseSql.internalQuery config w fuel (getSqlQuery query)
    (maxRetries config) st = (Return r, st2) ->
  CouchbaseSql.read config w getSqlQuery fuel query st
    = (Return (getProp r "recordset"), st2).
Proof.
  intros Hq. unfold CouchbaseSql.read, bind, CouchbaseSql.connect,
    CouchbaseSql.this_cluster. by rewrite Hq.
Qed.

(** ** [insert] with a falsy value *)

Lemma kvCall_falsy key v : truthy v = false -> kvCall key v false = CGet key.
Proof. unfold kvCall. by intros ->. Qed.

Lemma kv_statement_calls_only config w fuel key v deletion retry st :
  extends (fun e => quiet e \/ exists h, e = Call h (kvCall key v deletion))
    st (snd (CouchbaseKv.internalKeyValueStatement config w fuel key v
               deletion retry st)).
Proof.
  rewrite kv_internalKeyValueStatement_executor.
  apply executor_calls_only_op;
    auto using kv_connect_quiet, kv_connect_unawaited_quiet.
Qed.

(** C9.  In the key-value revision, [insert({id: k, value: v})] with a
    falsy [v] never upserts: [internalKeyValueStatement] tests [!value], so
    every attempt the call makes is a key-value get on [k], and when that
    get succeeds its result is what [insert] returns. *)
Theorem insert_with_falsy_value_gets config w key v :
  truthy v = false ->
  kvCall key v false = CGet key /\
  (forall fuel st,
     extends (fun e => forall h c, e = Call h c -> c = CGet key) st
       (snd (CouchbaseKv.insert config w fuel
               {| CouchbaseKv.id := key; CouchbaseKv.value_of := v |} st))) /\
  (forall fuel st r,
     handshake w (trace st) = None ->
     handshake w (trace st ++ [Handshake (handshakes (trace st))]) = None ->
     store w (trace st ++ [Handshake (handshakes (trace st));
                           Handshake (S (handshakes (trace st)))])
       (S (handshakes (trace st))) (CGet key) = Resolve r ->
     exists st',
       CouchbaseKv.insert config w (S fuel)
         {| CouchbaseKv.id := key; CouchbaseKv.value_of := v |} st
         = (Return r, st') /\
       trace st' = trace st ++ [Handshake (handshakes (trace st));
                                Handshake (S (handshakes (trace st)));
                                Call (S (handshakes (trace st))) (CGet key)]).
Proof.
  intros Hv. split; [by apply kvCall_falsy|]. split.
  - intros fuel st. unfold CouchbaseKv.insert, bind. cbn [CouchbaseKv.id CouchbaseKv.value_of].
    set (P := fun e => forall h c, e = Call h c -> c = CGet key).
    assert (Hq : forall a b : state CouchbaseKv.fields,
               extends quiet a b -> extends P a b).
    { intros a b. apply extends_weaken. intros e He h c ->. discriminate He. }
    pose proof (Hq _ _ (kv_connect_quiet w st)) as Hc.
    destruct (CouchbaseKv.connect w st) as [[h|e|] st1]; simpl in Hc; try exact Hc.
    pose proof (kv_statement_calls_only config w fuel key v false
                  (maxRetries config) st1) as Hs.
    rewrite (kvCall_falsy key v Hv) in Hs.
    assert (Hs' : extends P st
      (snd (CouchbaseKv.internalKeyValueStatement config w fuel key v false
              (maxRetries config) st1))).
    { eapply extends_trans; [exact Hc|].
      eapply extends_weaken; [|exact Hs].
      intros e [He | (h' & ->)] h'' c E; [subst e; discriminate He|].
      by injection E as _ <-. }
    by destruct (CouchbaseKv.internalKeyValueStatement config w fuel key v
                   false (maxRetries config) st1) as [[r|e|] st2].
  - intros fuel st r H0 H1 Hs. eexists. split.
    + unfold CouchbaseKv.insert, bind. cbn [CouchbaseKv.id CouchbaseKv.value_of].
      rewrite kv_connect_accepted by exact H0.
      rewrite kv_internalKeyValueStatement_executor, (kvCall_falsy key v Hv).
      rewrite kv_round_resolves with (r := r); [reflexivity | exact H1 |].
      rewrite handshakes_kv_connected, trace_kv_connected, <- app_assoc.
      exact Hs.
    + rewrite handshakes_kv_connected. unfold log; simpl.
      rewrite <- !app_assoc. reflexivity.
Qed.

Lemma insert_with_falsy_value_witness :
  truthy (VStr "") = false /\
  exists st',
    CouchbaseKv.insert (configured (BInt 3)) (resolving no_rows) 1
      {| CouchbaseKv.id := "k1"; CouchbaseKv.value_of := VStr "" |} kv_new
      = (Return no_rows, st') /\
    trace st' = trace kv_new ++ [Handshake (handshakes (trace kv_new));
                                 Handshake (S (handshakes (trace kv_new)));
                                 Call (S (handshakes (trace kv_new))) (CGet "k1")].
Proof.
  split; [reflexivity|].
  destruct (insert_with_falsy_value_gets (configured (BInt 3))
              (resolving no_rows) "k1" (VStr "") eq_refl) as (_ & _ & Hrun).
  apply (Hrun O kv_new no_rows); reflexivity.
Defined.

Example insert_falsy_values :
  truthy VNull = false /\ truthy VUndefined = false /\
  truthy (VStr "") = false /\ truthy (VNum 0) = false /\
  truthy (VBool false) = false /\ truthy VNaN = false /\
  kvCall "k1" (VNum 0) false = CGet "k1" /\
  kvCall "k1" (VStr "v") false = CUpsert "k1" (VStr "v").
Proof. repeat split; reflexivity. Qed.

(** * Further properties of the connector *)

(** ** How long a run can last *)

Lemma attempts_snoc_handshake tr h :
  attempts (tr ++ [Handshake h]) = attempts tr.
Proof. count_events. Qed.

Lemma attempts_kv_after_rejection op st :
  attempts (trace (kv_after_rejection op st)) = S (attempts (trace st)).
Proof. rewrite trace_kv_after_rejection. count_events. Qed.

Lemma handshakes_kv_after_rejection op st :
  handshakes (trace (kv_after_rejection op st)) = S (S (handshakes (trace st))).
Proof. rewrite trace_kv_after_rejection. count_events. Qed.

Lemma nextBudget_positive limit z :
  0 < z -> nextBudget limit (BInt z) = BInt (z - 1).
Proof.
  intros Hz. unfold nextBudget, truthy_budget, minus_one, toNumber.
  destruct (Z.eqb_spec z 0) as [E|_]; [lia | reflexivity].
Qed.

Section ExecutorBound.
Context {F : Type}.
Variable w : World.
Variable limit : budget.
Variable acquire : M F handle.
Variable op : call.
Variable reconnect : M F unit.

Local Abbreviation run := (executor w limit acquire op reconnect).

Hypothesis acquire_quiet : forall st, extends quiet st (snd (acquire st)).
Hypothesis reconnect_quiet : forall st, extends quiet st (snd (reconnect st)).
Hypothesis acquire_settles : forall st, fst (acquire st) <> OutOfFuel.
Hypothesis reconnect_returns :
  forall st, exists st1, reconnect st = (Return tt, st1).

(** Whatever the world answers, an integer budget [z] is used up after at
    most [z + 1] rounds (one round when [z <= 0]). *)
Lemma executor_bounded n :
  forall z fuel st, Z.to_nat z = n -> (n < fuel)%nat ->
    fst (run fuel (BInt z) st) <> OutOfFuel /\
    (attempts (trace (snd (run fuel (BInt z) st)))
       <= attempts (trace st) + n + 1)%nat.
Proof.
  induction n as [|n IH]; intros z [|fuel] st Hn Hf; try lia.
  - pose proof (extends_quiet_attempts _ _ (acquire_quiet st)) as E1.
    pose proof (acquire_settles st) as Hset.
    destruct (acquire st) as [[h|e|] st1] eqn:Ha; cbn [fst snd] in E1, Hset;
      [| |done].
    2:{ rewrite (executor_acquire_throws _ _ _ _ _ fuel _ _ _ _ Ha).
        cbn [fst snd]. split; [done | lia]. }
    destruct (store w (trace st1) h op) as [r|e] eqn:Hs.
    { rewrite (executor_resolves _ _ _ _ _ fuel _ _ _ _ _ Ha Hs).
      cbn [fst snd]. rewrite attempts_log_call. split; [done | lia]. }
    destruct (isRetryable e) eqn:He.
    + destruct (reconnect_returns (log (Call h op) st1)) as (st2 & Hr).
      pose proof (extends_quiet_attempts _ _
                    (reconnect_quiet (log (Call h op) st1))) as E2.
      rewrite Hr in E2; cbn [snd] in E2. rewrite attempts_log_call in E2.
      assert (Hz : le_zero (BInt z) = true).
      { unfold le_zero, toNumber. apply Z.leb_le. lia. }
      rewrite (executor_exhausted _ _ _ _ _ fuel _ _ _ _ _ _ Ha Hs He Hr Hz).
      cbn [fst snd]. rewrite attempts_log_quiet by reflexivity.
      split; [done | lia].
    + rewrite (executor_fatal _ _ _ _ _ fuel _ _ _ _ _ Ha Hs He).
      cbn [fst snd]. rewrite attempts_log_quiet by reflexivity.
      rewrite attempts_log_call. split; [done | lia].
  - pose proof (extends_quiet_attempts _ _ (acquire_quiet st)) as E1.
    pose proof (acquire_settles st) as Hset.
    destruct (acquire st) as [[h|e|] st1] eqn:Ha; cbn [fst snd] in E1, Hset;
      [| |done].
    2:{ rewrite (executor_acquire_throws _ _ _ _ _ fuel _ _ _ _ Ha).
        cbn [fst snd]. split; [done | lia]. }
    destruct (store w (trace st1) h op) as [r|e] eqn:Hs.
    { rewrite (executor_resolves _ _ _ _ _ fuel _ _ _ _ _ Ha Hs).
      cbn [fst snd]. rewrite attempts_log_call. split; [done | lia]. }
    destruct (isRetryable e) eqn:He.
    + destruct (reconnect_returns (log (Call h op) st1)) as (st2 & Hr).
      pose proof (extends_quiet_attempts _ _
                    (reconnect_quiet (log (Call h op) st1))) as E2.
      rewrite Hr in E2; cbn [snd] in E2. rewrite attempts_log_call in E2.
      assert (Hz : le_zero (BInt z) = false).
      { unfold le_zero, toNumber. apply Z.leb_gt. lia. }
      rewrite (executor_retries _ _ _ _ _ fuel _ _ _ _ _ _ Ha Hs He Hr Hz).
      rewrite nextBudget_positive by lia.
      destruct (IH (z - 1) fuel st2) as [Hout Hcount]; [lia | lia |].
      split; [exact Hout | lia].
    + rewrite (executor_fatal _ _ _ _ _ fuel _ _ _ _ _ Ha Hs He).
      cbn [fst snd]. rewrite attempts_log_quiet by reflexivity.
      rewrite attempts_log_call. split; [done | lia].
Qed.
End ExecutorBound.

Lemma kv_connect_settles w st : fst (CouchbaseKv.connect w st) <> OutOfFuel.
Proof.
  destruct (handshake w (trace st)) as [e|] eqn:Hh.
  - by rewrite (kv_connect_rejected w st e Hh).
  - by rewrite (kv_connect_accepted w st Hh).
Qed.

(** X1.  Bounded retry: started with an integer budget [z], each of the
    three executors settles, whatever the cluster answers, after at most
    [z + 1] underlying attempts (after one attempt when [z <= 0]); the
    configured [maxRetries] plays no part. *)
Theorem integer_budget_bounds_attempts config w z fuel :
  (Z.to_nat z < fuel)%nat ->
  (forall query st,
     fst (CouchbaseKv.internalQuery config w fuel query (BInt z) st)
       <> OutOfFuel /\
     (attempts (trace (snd (CouchbaseKv.internalQuery config w fuel query
                              (BInt z) st)))
        <= attempts (trace st) + Z.to_nat z + 1)%nat) /\
  (forall key v deletion st,
     fst (CouchbaseKv.internalKeyValueStatement config w fuel key v deletion
            (BInt z) st) <> OutOfFuel /\
     (attempts (trace (snd (CouchbaseKv.internalKeyValueStatement config w
                              fuel key v deletion (BInt z) st)))
        <= attempts (trace st) + Z.to_nat z + 1)%nat) /\
  (forall query st,
     fst (CouchbaseSql.internalQuery config w fuel query (BInt z) st)
       <> OutOfFuel /\
     (attempts (trace (snd (CouchbaseSql.internalQuery config w fuel query
                              (BInt z) st)))
        <= attempts (trace st) + Z.to_nat z + 1)%nat).
Proof.
  intros Hf. split; [|split].
  - intros query st. rewrite kv_internalQuery_executor.
    apply executor_bounded with (n := Z.to_nat z);
      auto using kv_connect_quiet, kv_connect_unawaited_quiet,
        kv_connect_settles, kv_connect_unawaited_returns.
  - intros key v deletion st. rewrite kv_internalKeyValueStatement_executor.
    apply executor_bounded with (n := Z.to_nat z);
      auto using kv_connect_quiet, kv_connect_unawaited_quiet,
        kv_connect_settles, kv_connect_unawaited_returns.
  - intros query st. rewrite sql_internalQuery_executor.
    apply executor_bounded with (n := Z.to_nat z);
      auto using sql_this_cluster_quiet, sql_connect_unawaited_quiet.
    intros st0. by exists st0.
Qed.

Lemma integer_budget_bounds_witness :
  (Z.to_nat 2 < 3)%nat /\
  fst (CouchbaseKv.internalQuery (configured BUndefined)
         (failing_times 1 (VError "107") no_rows) 3 select1 (BInt 2) kv_new)
    <> OutOfFuel /\
  (attempts (trace (snd (CouchbaseKv.internalQuery (configured BUndefined)
                           (failing_times 1 (VError "107") no_rows) 3 select1
                           (BInt 2) kv_new)))
     <= attempts (trace kv_new) + Z.to_nat 2 + 1)%nat.
Proof.
  assert (H : (Z.to_nat 2 < 3)%nat) by (simpl; lia).
  split; [exact H|].
  apply (integer_budget_bounds_attempts (configured BUndefined)
           (failing_times 1 (VError "107") no_rows) 2 3 H).
Defined.

(** ** A budget that is never used up *)

Lemma unbounded_cases b : unbounded b <-> b = BNaN \/ b = BUndefined.
Proof.
  unfold unbounded. split.
  - intros [Hz Ht]. destruct (falsy_budget_cases b Ht) as [_ Hgt].
    by apply Hgt.
  - by intros [-> | ->].
Qed.

Section ExecutorForever.
Context {F : Type}.
Variable w : World.
Variable limit : budget.
Variable acquire : M F handle.
Variable op : call.
Variable reconnect : M F unit.

Local Abbreviation run := (executor w limit acquire op reconnect).

Hypothesis acquire_quiet : forall st, extends quiet st (snd (acquire st)).
Hypothesis reconnect_quiet : forall st, extends quiet st (snd (reconnect st)).
Hypothesis acquire_returns :
  forall st, exists h st1, acquire st = (Return h, st1).
Hypothesis reconnect_returns :
  forall st, exists st1, reconnect st = (Return tt, st1).
Hypothesis store_rejects :
  forall tr h, exists e, store w tr h op = Reject e /\ isRetryable e = true.
Hypothesis limit_unbounded : unbounded limit.

Lemma executor_never_settles fuel :
  forall retry st, unbounded retry ->
    exists st',
      run fuel retry st = (OutOfFuel, st') /\
      attempts (trace st') = (attempts (trace st) + fuel)%nat.
Proof.
  induction fuel as [|fuel IH]; intros retry st [Hz Ht].
  { exists st. split; [reflexivity | lia]. }
  destruct (acquire_returns st) as (h & st1 & Ha).
  destruct (store_rejects (trace st1) h) as (e & Hs & He).
  destruct (reconnect_returns (log (Call h op) st1)) as (st2 & Hr).
  destruct (IH limit st2 limit_unbounded) as (st' & Hrun & Hcount).
  exists st'. split.
  - rewrite (executor_retries _ _ _ _ _ fuel _ _ _ _ _ _ Ha Hs He Hr Hz).
    by rewrite (nextBudget_falsy limit retry Ht).
  - rewrite Hcount.
    pose proof (extends_quiet_attempts _ _
                  (reconnect_quiet (log (Call h op) st1))) as E2.
    rewrite Hr in E2; cbn [snd] in E2. rewrite E2, attempts_log_call.
    pose proof (extends_quiet_attempts _ _ (acquire_quiet st)) as E1.
    rewrite Ha in E1; cbn [snd] in E1. rewrite E1. lia.
Qed.
End ExecutorForever.

(** X2.  When the configured [maxRetries] is [undefined] or NaN and the run
    starts on such a budget, a store that rejects every call with a
    Retryable error is retried without end: however long the run is
    observed it has not settled, and it has made one more attempt for
    every round observed.  The key-value revision does so provided the
    cluster accepts every handshake; the SQL-only revision starts none and
    needs no such condition.  [read] starts on [config.maxRetries], so it
    never settles either. *)
Theorem missing_budget_retries_forever config w getSqlQuery retry fuel :
  unbounded (maxRetries config) ->
  unbounded retry ->
  rejects_every_call w ->
  (accepts_every_handshake w ->
   (forall query st,
      exists st',
        CouchbaseKv.internalQuery config w fuel query retry st
          = (OutOfFuel, st') /\
        attempts (trace st') = (attempts (trace st) + fuel)%nat) /\
   (forall key v deletion st,
      exists st',
        CouchbaseKv.internalKeyValueStatement config w fuel key v deletion
          retry st = (OutOfFuel, st') /\
        attempts (trace st') = (attempts (trace st) + fuel)%nat) /\
   (forall query st,
      fst (CouchbaseKv.read config w getSqlQuery fuel query st) = OutOfFuel)) /\
  (forall query st,
     exists st',
       CouchbaseSql.internalQuery config w fuel query retry st
         = (OutOfFuel, st') /\
       attempts (trace st') = (attempts (trace st) + fuel)%nat) /\
  (forall query st,
     fst (CouchbaseSql.read config w getSqlQuery fuel query st) = OutOfFuel).
Proof.
  intros Hlimit Hretry Hs.
  assert (Hsqlq : forall b, unbounded b -> forall query st,
     exists st',
       CouchbaseSql.internalQuery config w fuel query b st = (OutOfFuel, st') /\
       attempts (trace st') = (attempts (trace st) + fuel)%nat).
  { intros b Hb query st. rewrite sql_internalQuery_executor.
    apply executor_never_settles;
      auto using sql_this_cluster_quiet, sql_connect_unawaited_quiet.
    - intros st0. by exists (CouchbaseSql.cluster (self st0)), st0.
    - intros st0. by exists st0. }
  split; [|split].
  - intros Hh.
    assert (Hkvq : forall b, unbounded b -> forall query st,
       exists st',
         CouchbaseKv.internalQuery config w fuel query b st = (OutOfFuel, st') /\
         attempts (trace st') = (attempts (trace st) + fuel)%nat).
    { intros b Hb query st. rewrite kv_internalQuery_executor.
      apply executor_never_settles;
        auto using kv_connect_quiet, kv_connect_unawaited_quiet,
          kv_connect_returns, kv_connect_unawaited_returns. }
    split; [by apply Hkvq|]. split.
    + intros key v deletion st. rewrite kv_internalKeyValueStatement_executor.
      apply executor_never_settles;
        auto using kv_connect_quiet, kv_connect_unawaited_quiet,
          kv_connect_returns, kv_connect_unawaited_returns.
    + intros query st. unfold CouchbaseKv.read, bind.
      rewrite kv_connect_accepted by apply Hh.
      destruct (Hkvq _ Hlimit (getSqlQuery query)
                  (kv_connected (handshakes (trace st)) st)) as (st' & -> & _).
      reflexivity.
  - by apply Hsqlq.
  - intros query st. unfold CouchbaseSql.read, bind.
    rewrite sql_connect_returns_constructor_handle.
    destruct (Hsqlq _ Hlimit (getSqlQuery query) st) as (st' & -> & _).
    reflexivity.
Qed.

Lemma missing_budget_witness :
  unbounded (maxRetries (configured BUndefined)) /\
  unbounded BUndefined /\
  rejects_every_call (rejecting (VError "107")) /\
  accepts_every_handshake (rejecting (VError "107")) /\
  exists st',
    CouchbaseKv.internalQuery (configured BUndefined)
      (rejecting (VError "107")) 7 select1 BUndefined kv_new
      = (OutOfFuel, st') /\
    attempts (trace st') = (attempts (trace kv_new) + 7)%nat.
Proof.
  assert (Hu : unbounded BUndefined) by (split; reflexivity).
  assert (Hs : rejects_every_call (rejecting (VError "107"))).
  { intros tr h c. exists (VError "107"). split; reflexivity. }
  assert (Hh : accepts_every_handshake (rejecting (VError "107"))).
  { intros tr. reflexivity. }
  split; [exact Hu|]. split; [exact Hu|]. split; [exact Hs|].
  split; [exact Hh|].
  exact (proj1 (proj1 (missing_budget_retries_forever (configured BUndefined)
                         (rejecting (VError "107")) canonicalQuery BUndefined
                         7 Hu Hu Hs) Hh) select1 kv_new).
Defined.

(** ** Recovery after transient failures *)

Lemma recovers_after_next w op a0 k r :
  recovers_after w op a0 (S k) r -> recovers_after w op (S a0) k r.
Proof.
  intros (Hh & Hrej & Hres). split; [exact Hh|]. split.
  - intros tr h Hlt. apply Hrej. lia.
  - intros tr h Heq. apply Hres. lia.
Qed.

Lemma kv_executor_recovers config w op r k :
  forall n fuel st,
    (k <= n)%nat -> (k < fuel)%nat ->
    recovers_after w op (attempts (trace st)) k r ->
    exists st',
      executor w (maxRetries config) (CouchbaseKv.connect w) op
        CouchbaseKv.connect_unawaited fuel (BInt (Z.of_nat n)) st
        = (Return r, st') /\
      attempts (trace st') = (attempts (trace st) + k + 1)%nat /\
      handshakes (trace st') = (handshakes (trace st) + 2 * k + 1)%nat.
Proof.
  induction k as [|k IH]; intros n [|fuel] st Hkn Hf Hw; try lia.
  - destruct Hw as (Hh & _ & Hres). eexists. split; [|split].
    + apply kv_round_resolves; [apply Hh|]. apply Hres.
      rewrite attempts_snoc_handshake. lia.
    + unfold log, kv_connected; simpl. count_events.
    + unfold log, kv_connected; simpl. count_events.
  - destruct n as [|n]; [lia|].
    pose proof Hw as (Hh & Hrej & _).
    destruct (Hrej (trace st ++ [Handshake (handshakes (trace st))])
                (handshakes (trace st))) as (e & Hs & He).
    { rewrite attempts_snoc_handshake. lia. }
    assert (Hz : le_zero (BInt (Z.of_nat (S n))) = false).
    { unfold le_zero, toNumber. apply Z.leb_gt. lia. }
    destruct (IH n fuel (kv_after_rejection op st)) as (st' & Hrun & Ha & Hc);
      [lia | lia | |].
    { rewrite attempts_kv_after_rejection. by apply recovers_after_next. }
    exists st'. split; [|split].
    + rewrite (kv_round_retries config w op fuel _ st e (Hh _) Hs He Hz).
      by rewrite nextBudget_succ.
    + rewrite Ha, attempts_kv_after_rejection. lia.
    + rewrite Hc, handshakes_kv_after_rejection. lia.
Qed.

Lemma sql_executor_recovers config w op r k :
  forall n fuel st,
    (k <= n)%nat -> (k < fuel)%nat ->
    recovers_after w op (attempts (trace st)) k r ->
    exists st',
      executor w (maxRetries config) CouchbaseSql.this_cluster op
        CouchbaseSql.connect_unawaited fuel (BInt (Z.of_nat n)) st
        = (Return r, st') /\
      attempts (trace st') = (attempts (trace st) + k + 1)%nat /\
      handshakes (trace st') = handshakes (trace st) /\
      self st' = self st.
Proof.
  induction k as [|k IH]; intros n [|fuel] st Hkn Hf Hw; try lia.
  - destruct Hw as (_ & _ & Hres). eexists. split; [|split; [|split]].
    + apply sql_round_resolves. apply Hres. lia.
    + unfold log; simpl. count_events.
    + unfold log; simpl. count_events.
    + reflexivity.
  - destruct n as [|n]; [lia|].
    pose proof Hw as (_ & Hrej & _).
    destruct (Hrej (trace st) (CouchbaseSql.cluster (self st)))
      as (e & Hs & He); [lia|].
    assert (Hz : le_zero (BInt (Z.of_nat (S n))) = false).
    { unfold le_zero, toNumber. apply Z.leb_gt. lia. }
    destruct (IH n fuel
                (log (Call (CouchbaseSql.cluster (self st)) op) st))
      as (st' & Hrun & Ha & Hc & Hself); [lia | lia | |].
    { rewrite attempts_log_call. by apply recovers_after_next. }
    exists st'. split; [|split; [|split]].
    + rewrite (sql_round_retries config w op fuel _ st e Hs He Hz).
      by rewrite nextBudget_succ.
    + rewrite Ha, attempts_log_call. lia.
    + rewrite Hc. unfold log; simpl. count_events.
    + by rewrite Hself.
Qed.

(** ** [read] after transient failures *)



(** X3.  Recovery: when the store rejects the first [k] attempts with
    Retryable errors and resolves the next one with [r], a budget
    [n >= k] makes each executor return [r] after exactly [k + 1]
    attempts.  The key-value revision starts [2 k + 1] handshakes on the
    way (one awaited before every attempt, one un-awaited after every
    rejection); the SQL-only revision starts none and leaves the instance
    as it was. *)
Theorem recovers_after_transient_failures config w r (n k fuel : nat) :
  (k <= n)%nat -> (k < fuel)%nat ->
  (forall query st,
     recovers_after w (CQuery (sql query)) (attempts (trace st)) k r ->
     exists st',
       CouchbaseKv.internalQuery config w fuel query (BInt (Z.of_nat n)) st
         = (Return r, st') /\
       attempts (trace st') = (attempts (trace st) + k + 1)%nat /\
       handshakes (trace st') = (handshakes (trace st) + 2 * k + 1)%nat) /\
  (forall key v deletion st,
     recovers_after w (kvCall key v deletion) (attempts (trace st)) k r ->
     exists st',
       CouchbaseKv.internalKeyValueStatement config w fuel key v deletion
         (BInt (Z.of_nat n)) st = (Return r, st') /\
       attempts (trace st') = (attempts (trace st) + k + 1)%nat /\
       handshakes (trace st') = (handshakes (trace st) + 2 * k + 1)%nat) /\
  (forall query st,
     recovers_after w (CQuery (sql query)) (attempts (trace st)) k r ->
     exists st',
       CouchbaseSql.internalQuery config w fuel query (BInt (Z.of_nat n)) st
         = (Return r, st') /\
       attempts (trace st') = (attempts (trace st) + k + 1)%nat /\
       handshakes (trace st') = handshakes (trace st) /\
       self st' = self st).
Proof.
  intros Hkn Hf. split; [|split].
  - intros query st Hw. rewrite kv_internalQuery_executor.
    by apply kv_executor_recovers.
  - intros key v deletion st Hw. rewrite kv_internalKeyValueStatement_executor.
    by apply kv_executor_recovers.
  - intros query st Hw. rewrite sql_internalQuery_executor.
    by apply sql_executor_recovers.
Qed.

Lemma failing_times_recovers k e r op :
  isRetryable e = true -> recovers_after (failing_times k e r) op 0 k r.
Proof.
  intros He. split; [reflexivity|]. split.
  - intros tr h Hlt. exists e. split; [|exact He]. simpl.
    destruct (Nat.ltb_spec (attempts tr) k); [reflexivity | lia].
  - intros tr h Heq. simpl.
    destruct (Nat.ltb_spec (attempts tr) k); [lia | reflexivity].
Qed.

Lemma recovers_after_witness :
  (2 <= 3)%nat /\ (2 < 3)%nat /\
  recovers_after (failing_times 2 (VError "170") no_rows)
    (CQuery (sql select1)) (attempts (trace kv_new)) 2 no_rows /\
  exists st',
    CouchbaseKv.internalQuery (configured (BInt 3))
      (failing_times 2 (VError "170") no_rows) 3 select1
      (BInt (Z.of_nat 3)) kv_new = (Return no_rows, st') /\
    attempts (trace st') = (attempts (trace kv_new) + 2 + 1)%nat /\
    handshakes (trace st') = (handshakes (trace kv_new) + 2 * 2 + 1)%nat.
Proof.
  assert (H1 : (2 <= 3)%nat) by lia.
  assert (H2 : (2 < 3)%nat) by lia.
  assert (Hw : recovers_after (failing_times 2 (VError "170") no_rows)
                 (CQuery (sql select1)) (attempts (trace kv_new)) 2 no_rows).
  { split; [reflexivity|]. split.
    - intros tr h Hlt. exists (VError "170"). split; [|reflexivity]. simpl.
      destruct (Nat.ltb_spec (attempts tr) 2); [reflexivity|].
      simpl in Hlt. lia.
    - intros tr h Heq. simpl.
      destruct (Nat.ltb_spec (attempts tr) 2); [|reflexivity].
      simpl in Heq. lia. }
  split; [exact H1|]. split; [exact H2|]. split; [exact Hw|].
  exact (proj1 (recovers_after_transient_failures (configured (BInt 3))
                  (failing_times 2 (VError "170") no_rows) no_rows 3 2 3
                  H1 H2) select1 kv_new Hw).
Defined.

(** ** What a run can throw *)

Section ExecutorThrows.
Context {F : Type}.
Variable w : World.
Variable limit : budget.
Variable acquire : M F handle.
Variable op : call.
Variable reconnect : M F unit.

Local Abbreviation run := (executor w limit acquire op reconnect).

Hypothesis reconnect_returns :
  forall st, exists st1, reconnect st = (Return tt, st1).

(** A thrown error is the terminal failure (after the transient error was
    written with [console.error]), or a Fatal error of the store (after
    [console.log]), or whatever obtaining the handle threw. *)
Lemma executor_throws fuel :
  forall retry st e,
    fst (run fuel retry st) = Throw e ->
    (e = maxRetriesExceeded /\
     exists e0, isRetryable e0 = true /\
       last (trace (snd (run fuel retry st))) = Some (ConsoleError e0)) \/
    (isRetryable e = false /\
     last (trace (snd (run fuel retry st)))
       = Some (ConsoleLog "Unexpected error" e)) \/
    (exists st0, acquire st0 = (Throw e, snd (run fuel retry st))).
Proof.
  induction fuel as [|fuel IH]; intros retry st e; [discriminate|].
  destruct (acquire st) as [[h|e1|] st1] eqn:Ha.
  - destruct (store w (trace st1) h op) as [r|e1] eqn:Hs.
    { rewrite (executor_resolves _ _ _ _ _ fuel _ _ _ _ _ Ha Hs).
      discriminate. }
    destruct (isRetryable e1) eqn:He.
    + destruct (reconnect_returns (log (Call h op) st1)) as (st2 & Hr).
      destruct (le_zero retry) eqn:Hz.
      * rewrite (executor_exhausted _ _ _ _ _ fuel _ _ _ _ _ _ Ha Hs He Hr Hz).
        cbn [fst snd]. intros [= <-]. left. split; [reflexivity|].
        exists e1. split; [exact He|]. unfold log; simpl. apply last_snoc.
      * rewrite (executor_retries _ _ _ _ _ fuel _ _ _ _ _ _ Ha Hs He Hr Hz).
        apply IH.
    + rewrite (executor_fatal _ _ _ _ _ fuel _ _ _ _ _ Ha Hs He).
      cbn [fst snd]. intros [= <-]. right. left. split; [exact He|].
      unfold log; simpl. apply last_snoc.
  - rewrite (executor_acquire_throws _ _ _ _ _ fuel _ _ _ _ Ha).
    cbn [fst snd]. intros [= <-]. right. right. by exists st.
  - simpl. unfold bind. rewrite Ha. discriminate.
Qed.
End ExecutorThrows.

(** X4.  Retryable errors of the store never reach the caller.  Whatever a
    run of an executor throws is either the terminal "max retries exceeded"
    error, raised right after the transient error was written with
    [console.error], or an error of the store that is not Retryable, raised
    right after it was written with [console.log]; in the key-value
    revision it can also be the rejection of a handshake by [connect()],
    which is raised as it is and written nowhere. *)
Theorem thrown_errors_are_terminal_fatal_or_connect config w fuel retry e :
  (forall query st,
     fst (CouchbaseSql.internalQuery config w fuel query retry st) = Throw e ->
     isRetryable e = false /\
     ((e = maxRetriesExceeded /\
       exists e0, isRetryable e0 = true /\
         last (trace (snd (CouchbaseSql.internalQuery config w fuel query
                             retry st))) = Some (ConsoleError e0)) \/
      last (trace (snd (CouchbaseSql.internalQuery config w fuel query
                          retry st)))
        = Some (ConsoleLog "Unexpected error" e))) /\
  (forall query st,
     fst (CouchbaseKv.internalQuery config w fuel query retry st) = Throw e ->
     (isRetryable e = false /\
      ((e = maxRetriesExceeded /\
        exists e0, isRetryable e0 = true /\
          last (trace (snd (CouchbaseKv.internalQuery config w fuel query
                              retry st))) = Some (ConsoleError e0)) \/
       last (trace (snd (CouchbaseKv.internalQuery config w fuel query
                           retry st)))
         = Some (ConsoleLog "Unexpected error" e))) \/
     (exists st0,
        handshake w (trace st0) = Some e /\
        snd (CouchbaseKv.internalQuery config w fuel query retry st)
          = log (Handshake (handshakes (trace st0))) st0)) /\
  (forall key v deletion st,
     fst (CouchbaseKv.internalKeyValueStatement config w fuel key v deletion
            retry st) = Throw e ->
     (isRetryable e = false /\
      ((e = maxRetriesExceeded /\
        exists e0, isRetryable e0 = true /\
          last (trace (snd (CouchbaseKv.internalKeyValueStatement config w
                              fuel key v deletion retry st)))
            = Some (ConsoleError e0)) \/
       last (trace (snd (CouchbaseKv.internalKeyValueStatement config w fuel
                           key v deletion retry st)))
         = Some (ConsoleLog "Unexpected error" e))) \/
     (exists st0,
        handshake w (trace st0) = Some e /\
        snd (CouchbaseKv.internalKeyValueStatement config w fuel key v
               deletion retry st)
          = log (Handshake (handshakes (trace st0))) st0)).
Proof.
  assert (Hkv : forall st0 st',
            CouchbaseKv.connect w st0 = (Throw e, st') ->
            handshake w (trace st0) = Some e /\
            st' = log (Handshake (handshakes (trace st0))) st0).
  { intros st0 st' Hc. destruct (handshake w (trace st0)) as [e1|] eqn:Hh.
    - rewrite (kv_connect_rejected w st0 e1 Hh) in Hc. by injection Hc as -> <-.
    - by rewrite (kv_connect_accepted w st0 Hh) in Hc. }
  split; [|split].
  - intros query st. rewrite sql_internalQuery_executor. intros Ht.
    destruct (executor_throws w (maxRetries config) CouchbaseSql.this_cluster
                (CQuery (sql query)) CouchbaseSql.connect_unawaited
                (fun st0 => ex_intro _ st0 eq_refl) fuel retry st e Ht)
      as [[-> Hlog] | [[He Hlog] | [st0 Hc]]].
    + split; [reflexivity|]. by left.
    + split; [exact He|]. by right.
    + discriminate Hc.
  - intros query st. rewrite kv_internalQuery_executor. intros Ht.
    destruct (executor_throws w (maxRetries config) (CouchbaseKv.connect w)
                (CQuery (sql query)) CouchbaseKv.connect_unawaited
                kv_connect_unawaited_returns fuel retry st e Ht)
      as [[-> Hlog] | [[He Hlog] | [st0 Hc]]].
    + left. split; [reflexivity|]. by left.
    + left. split; [exact He|]. by right.
    + right. exists st0. by apply Hkv.
  - intros key v deletion st. rewrite kv_internalKeyValueStatement_executor.
    intros Ht.
    destruct (executor_throws w (maxRetries config) (CouchbaseKv.connect w)
                (kvCall key v deletion) CouchbaseKv.connect_unawaited
                kv_connect_unawaited_returns fuel retry st e Ht)
      as [[-> Hlog] | [[He Hlog] | [st0 Hc]]].
    + left. split; [reflexivity|]. by left.
    + left. split; [exact He|]. by right.
    + right. exists st0. by apply Hkv.
Qed.

Lemma thrown_errors_witness :
  fst (CouchbaseKv.internalQuery (configured (BInt 1))
         (rejecting (VError "201")) 4 select1 (BInt 1) kv_new)
    = Throw maxRetriesExceeded /\
  ((isRetryable maxRetriesExceeded = false /\
    ((maxRetriesExceeded = maxRetriesExceeded /\
      exists e0, isRetryable e0 = true /\
        last (trace (snd (CouchbaseKv.internalQuery (configured (BInt 1))
                            (rejecting (VError "201")) 4 select1 (BInt 1)
                            kv_new))) = Some (ConsoleError e0)) \/
     last (trace (snd (CouchbaseKv.internalQuery (configured (BInt 1))
                         (rejecting (VError "201")) 4 select1 (BInt 1)
                         kv_new)))
       = Some (ConsoleLog "Unexpected error" maxRetriesExceeded))) \/
   (exists st0,
      handshake (rejecting (VError "201")) (trace st0)
        = Some maxRetriesExceeded /\
      snd (CouchbaseKv.internalQuery (configured (BInt 1))
             (rejecting (VError "201")) 4 select1 (BInt 1) kv_new)
        = log (Handshake (handshakes (trace st0))) st0)).
Proof.
  assert (Ht : fst (CouchbaseKv.internalQuery (configured (BInt 1))
                      (rejecting (VError "201")) 4 select1 (BInt 1) kv_new)
               = Throw maxRetriesExceeded) by reflexivity.
  split; [exact Ht|].
  exact (proj1 (proj2 (thrown_errors_are_terminal_fatal_or_connect
                         (configured (BInt 1)) (rejecting (VError "201")) 4
                         (BInt 1) maxRetriesExceeded)) select1 kv_new Ht).
Defined.

(** ** A rejected handshake *)

(** X5.  In the key-value revision [connect()] is awaited outside the
    [try]: when the cluster rejects the handshake, the error is raised as
    it is, without an attempt, without a retry and without a line on the
    console, even when its message is one of the transient codes.  This
    holds for the two executors and for the four operations, whose first
    statement is [await this.connect()]. *)
Theorem rejected_handshake_is_not_retried config w getSqlQuery fuel retry e st :
  handshake w (trace st) = Some e ->
  (forall query,
     CouchbaseKv.internalQuery config w (S fuel) query retry st
       = (Throw e, log (Handshake (handshakes (trace st))) st)) /\
  (forall key v deletion,
     CouchbaseKv.internalKeyValueStatement config w (S fuel) key v deletion
       retry st = (Throw e, log (Handshake (handshakes (trace st))) st)) /\
  (forall query,
     CouchbaseKv.read config w getSqlQuery fuel query st
       = (Throw e, log (Handshake (handshakes (trace st))) st)) /\
  (forall entry,
     CouchbaseKv.insert config w fuel entry st
       = (Throw e, log (Handshake (handshakes (trace st))) st)) /\
  (forall id,
     CouchbaseKv.delete config w fuel id st
       = (Throw e, log (Handshake (handshakes (trace st))) st)) /\
  (forall id,
     CouchbaseKv.get config w fuel id st
       = (Throw e, log (Handshake (handshakes (trace st))) st)) /\
  attempts (trace (log (Handshake (handshakes (trace st))) st))
    = attempts (trace st) /\
  self (log (Handshake (handshakes (trace st))) st) = self st.
Proof.
  intros Hh. pose proof (kv_connect_rejected w st e Hh) as Hc.
  repeat split.
  - intros query. rewrite kv_internalQuery_executor.
    by apply kv_round_connect_rejected.
  - intros key v deletion. rewrite kv_internalKeyValueStatement_executor.
    by apply kv_round_connect_rejected.
  - intros query. unfold CouchbaseKv.read, bind. by rewrite Hc.
  - intros entry. unfold CouchbaseKv.insert, bind. by rewrite Hc.
  - intros id. unfold CouchbaseKv.delete, bind. by rewrite Hc.
  - intros id. unfold CouchbaseKv.get, bind. by rewrite Hc.
  - unfold log; simpl. apply attempts_snoc_handshake.
Qed.

Lemma rejected_handshake_witness :
  handshake (unreachable (VError "107")) (trace kv_new) = Some (VError "107") /\
  isRetryable (VError "107") = true /\
  CouchbaseKv.internalQuery (configured (BInt 3)) (unreachable (VError "107"))
    (S 4) select1 (BInt 3) kv_new
    = (Throw (VError "107"), log (Handshake (handshakes (trace kv_new))) kv_new).
Proof.
  split; [reflexivity|]. split; [reflexivity|].
  exact (proj1 (rejected_handshake_is_not_retried (configured (BInt 3))
                  (unreachable (VError "107")) canonicalQuery 4 (BInt 3)
                  (VError "107") kv_new eq_refl) select1).
Defined.

(** ** The SQL-only operations *)

Lemma extends_no_handshake {F} (P : event -> Prop) (a b : state F) :
  (forall e, P e -> isHandshake e = false) ->
  extends P a b -> handshakes (trace b) = handshakes (trace a).
Proof.
  intros HP (n & E & Fn). rewrite E. unfold handshakes. rewrite count_app.
  clear E. assert (count isHandshake n = O) as ->; [|lia].
  induction Fn as [|e n He _ IH]; simpl; [reflexivity|].
  by rewrite (HP e He), IH.
Qed.

Lemma sql_connect_then {A} (m : M CouchbaseSql.fields A) st :
  bind CouchbaseSql.connect (fun _ => m) st = m st.
Proof. reflexivity. Qed.

(** An SQL-only operation: [await this.connect()], the executor on the
    configured budget, then [finish] on the response. *)
Lemma sql_operation_never_reconnects config w {A} (finish : obj -> A) fuel q st :
  let run :=
    bind CouchbaseSql.connect (fun _ =>
    bind (CouchbaseSql.internalQuery config w fuel q (maxRetries config))
      (fun response => ret (finish response))) st in
  self (snd run) = self st /\
  handshakes (trace (snd run)) = handshakes (trace st) /\
  extends (fun e => forall h c, e = Call h c ->
                      h = CouchbaseSql.cluster (self st) /\ c = CQuery (sql q))
    st (snd run).
Proof.
  cbv zeta. rewrite !sql_connect_then.
  destruct (sql_never_reconnects config w fuel q (maxRetries config) st)
    as [Hself Hext].
  pose proof (executor_calls_only_op w (maxRetries config)
                CouchbaseSql.this_cluster (CQuery (sql q))
                CouchbaseSql.connect_unawaited sql_this_cluster_quiet
                sql_connect_unawaited_quiet fuel (maxRetries config) st) as Hop.
  rewrite <- sql_internalQuery_executor in Hop.
  assert (Hboth : extends
    (fun e => forall h c, e = Call h c ->
                h = CouchbaseSql.cluster (self st) /\ c = CQuery (sql q))
    st (snd (CouchbaseSql.internalQuery config w fuel q (maxRetries config) st))).
  { destruct Hext as (n & E & Fn). destruct Hop as (n' & E' & Fn').
    rewrite E in E'. apply app_inv_head in E'. subst n'.
    exists n. split; [exact E|].
    rewrite Forall_forall in Fn, Fn'. apply Forall_forall.
    intros e He h c ->. split.
    - by apply (proj2 (Fn _ He) h c).
    - destruct (Fn' _ He) as [Hq | [h' Hc]]; [discriminate Hq|].
      by injection Hc as _ ->. }
  assert (Hhs : handshakes
                  (trace (snd (CouchbaseSql.internalQuery config w fuel q
                                 (maxRetries config) st)))
                = handshakes (trace st)).
  { eapply extends_no_handshake; [|exact Hext]. by intros e [He _]. }
  unfold bind, ret.
  by destruct (CouchbaseSql.internalQuery config w fuel q (maxRetries config) st)
    as [[r|e|] st2].
Qed.

(** X6.  No operation of the SQL-only revision ever starts a handshake or
    changes the instance: in every run of [read], [create], [update] and
    [delete], whatever the cluster answers, each attempt is the
    normalized query sent on the handle the constructor created. *)
Theorem sql_operations_never_reconnect config w getSqlQuery fuel query st :
  let on_constructor_handle e :=
    forall h c, e = Call h c ->
      h = CouchbaseSql.cluster (self st) /\
      c = CQuery (sql (getSqlQuery query)) in
  (self (snd (CouchbaseSql.read config w getSqlQuery fuel query st)) = self st /\
   handshakes (trace (snd (CouchbaseSql.read config w getSqlQuery fuel query st)))
     = handshakes (trace st) /\
   extends on_constructor_handle st
     (snd (CouchbaseSql.read config w getSqlQuery fuel query st))) /\
  (self (snd (CouchbaseSql.create config w getSqlQuery fuel query st)) = self st /\
   handshakes (trace (snd (CouchbaseSql.create config w getSqlQuery fuel query st)))
     = handshakes (trace st) /\
   extends on_constructor_handle st
     (snd (CouchbaseSql.create config w getSqlQuery fuel query st))) /\
  (self (snd (CouchbaseSql.update config w getSqlQuery fuel query st)) = self st /\
   handshakes (trace (snd (CouchbaseSql.update config w getSqlQuery fuel query st)))
     = handshakes (trace st) /\
   extends on_constructor_handle st
     (snd (CouchbaseSql.update config w getSqlQuery fuel query st))) /\
  (self (snd (CouchbaseSql.delete config w getSqlQuery fuel query st)) = self st /\
   handshakes (trace (snd (CouchbaseSql.delete config w getSqlQuery fuel query st)))
     = handshakes (trace st) /\
   extends on_constructor_handle st
     (snd (CouchbaseSql.delete config w getSqlQuery fuel query st))).
Proof.
  cbv zeta. split; [|split; [|split]].
  - exact (sql_operation_never_reconnects config w
             (fun response => getProp response "recordset")
             fuel (getSqlQuery query) st).
  - exact (sql_operation_never_reconnects config w
             (fun response => orElse (getProp response "recordset")
                                (CouchbaseSql.marker "created"))
             fuel (getSqlQuery query) st).
  - exact (sql_operation_never_reconnects config w
             (fun response => orElse (getProp response "recordset")
                                (CouchbaseSql.marker "updated"))
             fuel (getSqlQuery query) st).
  - exact (sql_operation_never_reconnects config w
             (fun response => orElse (getProp response "recordset")
                                (CouchbaseSql.marker "deleted"))
             fuel (getSqlQuery query) st).
Qed.

Lemma sql_write_after_executor config w fuel q st (name : string) :
  forall out st2,
    CouchbaseSql.internalQuery config w fuel q (maxRetries config) st
      = (out, st2) ->
    bind CouchbaseSql.connect (fun _ =>
    bind (CouchbaseSql.internalQuery config w fuel q (maxRetries config))
      (fun response =>
         ret (orElse (getProp response "recordset")
                (CouchbaseSql.marker name)))) st
    = (match out with
       | Return r => Return (orElse (getProp r "recordset")
                               (CouchbaseSql.marker name))
       | Throw e => Throw e
       | OutOfFuel => OutOfFuel
       end, st2).
Proof.
  intros out st2 Hq. rewrite sql_connect_then. unfold bind, ret.
  rewrite Hq. by destruct out.
Qed.

(** X7.  [create], [update] and [delete] of the SQL-only revision, once the
    executor has returned a result: a result without a [recordset], or with
    a falsy one, yields the one-element sequence holding [{created: true}]
    ([{updated: true}], [{deleted: true}]); a [recordset] that is an array
    is returned as it is, also when it is empty, since an empty array is
    truthy.  When the executor throws, the operation throws the same error
    and yields no marker. *)
Theorem sql_writes_return_recordset_or_marker config w getSqlQuery fuel query st :
  (forall r st2,
     CouchbaseSql.internalQuery config w fuel (getSqlQuery query)
       (maxRetries config) st = (Return r, st2) ->
     (truthy (getProp r "recordset") = false ->
      CouchbaseSql.create config w getSqlQuery fuel query st
        = (Return (VArr [flag "created"]), st2) /\
      CouchbaseSql.update config w getSqlQuery fuel query st
        = (Return (VArr [flag "updated"]), st2) /\
      CouchbaseSql.delete config w getSqlQuery fuel query st
        = (Return (VArr [flag "deleted"]), st2)) /\
     (r !! "recordset" = None -> truthy (getProp r "recordset") = false) /\
     (forall rows, r !! "recordset" = Some (VArr rows) ->
      CouchbaseSql.create config w getSqlQuery fuel query st
        = (Return (VArr rows), st2) /\
      CouchbaseSql.update config w getSqlQuery fuel query st
        = (Return (VArr rows), st2) /\
      CouchbaseSql.delete config w getSqlQuery fuel query st
        = (Return (VArr rows), st2))) /\
  (forall e st2,
     CouchbaseSql.internalQuery config w fuel (getSqlQuery query)
       (maxRetries config) st = (Throw e, st2) ->
     CouchbaseSql.create config w getSqlQuery fuel query st = (Throw e, st2) /\
     CouchbaseSql.update config w getSqlQuery fuel query st = (Throw e, st2) /\
     CouchbaseSql.delete config w getSqlQuery fuel query st = (Throw e, st2)).
Proof.
  split.
  - intros r st2 Hq.
    pose proof (fun name => sql_write_after_executor config w fuel
                  (getSqlQuery query) st name _ _ Hq) as Hop.
    cbv beta iota in Hop. split; [|split].
    + intros Hf. unfold orElse in Hop. rewrite Hf in Hop.
      repeat split; apply Hop.
    + intros Hn. unfold getProp. by rewrite Hn.
    + intros rows Hr.
      assert (Hg : getProp r "recordset" = VArr rows).
      { unfold getProp. by rewrite Hr. }
      unfold orElse in Hop. rewrite Hg in Hop. cbn [truthy] in Hop.
      repeat split; apply Hop.
  - intros e st2 Hq.
    pose proof (fun name => sql_write_after_executor config w fuel
                  (getSqlQuery query) st name _ _ Hq) as Hop.
    cbv beta iota in Hop. repeat split; apply Hop.
Qed.

Lemma sql_writes_witness :
  let st : state CouchbaseSql.fields :=
    mkState {| CouchbaseSql.cluster := 0%nat |} [] in
  CouchbaseSql.internalQuery (configured (BInt 3)) (resolving ∅) 1
    (canonicalQuery (inl "DELETE FROM travel"))
    (maxRetries (configured (BInt 3))) st
  = (Return ∅, log (Call 0%nat (CQuery "DELETE FROM travel")) st) /\
  truthy (getProp ∅ "recordset") = false /\
  CouchbaseSql.delete (configured (BInt 3)) (resolving ∅) canonicalQuery 1
    (inl "DELETE FROM travel") st
  = (Return (VArr [flag "deleted"]),
     log (Call 0%nat (CQuery "DELETE FROM travel")) st).
Proof.
  intros st.
  assert (Hq : CouchbaseSql.internalQuery (configured (BInt 3)) (resolving ∅) 1
                 (canonicalQuery (inl "DELETE FROM travel"))
                 (maxRetries (configured (BInt 3))) st
               = (Return ∅, log (Call 0%nat (CQuery "DELETE FROM travel")) st))
    by reflexivity.
  split; [exact Hq|]. split; [reflexivity|].
  destruct (sql_writes_return_recordset_or_marker (configured (BInt 3))
              (resolving ∅) canonicalQuery 1 (inl "DELETE FROM travel") st)
    as [Hret _].
  destruct (Hret ∅ _ Hq) as (Hmark & _ & _).
  apply Hmark. reflexivity.
Defined.

(** ** The key-value operations *)

(** A key-value operation: [await this.connect()], the executor on the
    configured budget, then [finish] on the result. *)
Lemma kv_operation_calls_only config w {A} (finish : obj -> A)
    fuel key v deletion st :
  extends (fun e => forall h c, e = Call h c -> c = kvCall key v deletion) st
    (snd (bind (CouchbaseKv.connect w) (fun _ =>
          bind (CouchbaseKv.internalKeyValueStatement config w fuel key v
                  deletion (maxRetries config))
            (fun result => ret (finish result))) st)).
Proof.
  set (P := fun e => forall h c, e = Call h c -> c = kvCall key v deletion).
  assert (Hq : forall a b : state CouchbaseKv.fields,
             extends quiet a b -> extends P a b).
  { intros a b. apply extends_weaken. intros e He h c ->. discriminate He. }
  unfold bind, ret.
  pose proof (Hq _ _ (kv_connect_quiet w st)) as Hc.
  destruct (CouchbaseKv.connect w st) as [[h|e|] st1]; simpl in Hc; try exact Hc.
  pose proof (kv_statement_calls_only config w fuel key v deletion
                (maxRetries config) st1) as Hs.
  assert (Hs' : extends P st
    (snd (CouchbaseKv.internalKeyValueStatement config w fuel key v deletion
            (maxRetries config) st1))).
  { eapply extends_trans; [exact Hc|].
    eapply extends_weaken; [|exact Hs].
    intros e [He | (h' & ->)] h'' c E; [subst e; discriminate He|].
    by injection E as _ <-. }
  by destruct (CouchbaseKv.internalKeyValueStatement config w fuel key v
                 deletion (maxRetries config) st1) as [[r|e|] st2].
Qed.

(** X8.  What each key-value operation can ask of the store, in every run
    and whatever the cluster answers: [insert] with a truthy value only
    ever upserts that value under that key; [delete] only ever removes the
    key; [get] only ever reads the key.  None of them mixes reads and
    writes, and [get] never changes the store. *)
Theorem kv_operations_issue_one_call config w fuel st :
  (forall key v, truthy v = true ->
     extends (fun e => forall h c, e = Call h c -> c = CUpsert key v) st
       (snd (CouchbaseKv.insert config w fuel
               {| CouchbaseKv.id := key; CouchbaseKv.value_of := v |} st))) /\
  (forall id,
     extends (fun e => forall h c, e = Call h c -> c = CRemove id) st
       (snd (CouchbaseKv.delete config w fuel id st))) /\
  (forall id,
     extends (fun e => forall h c, e = Call h c -> c = CGet id) st
       (snd (CouchbaseKv.get config w fuel id st))).
Proof.
  split; [|split].
  - intros key v Hv.
    pose proof (kv_operation_calls_only config w (fun result => result)
                  fuel key v false st) as H.
    unfold kvCall in H. rewrite Hv in H. exact H.
  - intros id.
    exact (kv_operation_calls_only config w (fun result => result)
             fuel id VNull true st).
  - intros id.
    exact (kv_operation_calls_only config w
             (fun result => getProp result "content") fuel id VNull false st).
Qed.

Lemma kv_operations_issue_one_call_witness :
  truthy (VStr "v1") = true /\
  extends (fun e => forall h c, e = Call h c -> c = CUpsert "k1" (VStr "v1"))
    kv_new
    (snd (CouchbaseKv.insert (configured (BInt 3))
            (failing_times 1 (VError "107") no_rows) 5
            {| CouchbaseKv.id := "k1"; CouchbaseKv.value_of := VStr "v1" |}
            kv_new)).
Proof.
  split; [reflexivity|].
  exact (proj1 (kv_operations_issue_one_call (configured (BInt 3))
                  (failing_times 1 (VError "107") no_rows) 5 kv_new)
           "k1" (VStr "v1") eq_refl).
Defined.

Lemma kv_operation_first_attempt config w {A} (finish : obj -> A)
    fuel key v deletion st :
  handshake w (trace st) = None ->
  handshake w (trace st ++ [Handshake (handshakes (trace st))]) = None ->
  forall out,
    store w (trace st ++ [Handshake (handshakes (trace st));
                          Handshake (S (handshakes (trace st)))])
      (S (handshakes (trace st))) (kvCall key v deletion) = out ->
    (forall r, out = Resolve r ->
       bind (CouchbaseKv.connect w) (fun _ =>
       bind (CouchbaseKv.internalKeyValueStatement config w (S fuel) key v
               deletion (maxRetries config))
         (fun result => ret (finish result))) st
       = (Return (finish r),
          log (Call (S (handshakes (trace st))) (kvCall key v deletion))
            (kv_connected (S (handshakes (trace st)))
               (kv_connected (handshakes (trace st)) st)))) /\
    (forall e, out = Reject e -> isRetryable e = false ->
       bind (CouchbaseKv.connect w) (fun _ =>
       bind (CouchbaseKv.internalKeyValueStatement config w (S fuel) key v
               deletion (maxRetries config))
         (fun result => ret (finish result))) st
       = (Throw e,
          log (ConsoleLog "Unexpected error" e)
            (log (Call (S (handshakes (trace st))) (kvCall key v deletion))
               (kv_connected (S (handshakes (trace st)))
                  (kv_connected (handshakes (trace st)) st))))).
Proof.
  intros H0 H1 out Hs.
  assert (Hs' :
    store w (trace (kv_connected (handshakes (trace st)) st) ++
             [Handshake (handshakes (trace (kv_connected (handshakes (trace st)) st)))])
      (handshakes (trace (kv_connected (handshakes (trace st)) st)))
      (kvCall key v deletion) = out).
  { rewrite handshakes_kv_connected, trace_kv_connected, <- app_assoc.
    exact Hs. }
  split.
  - intros r ->. unfold bind at 1. rewrite kv_connect_accepted by exact H0.
    unfold bind, ret. rewrite kv_internalKeyValueStatement_executor.
    rewrite (kv_round_resolves config w _ fuel _
              (kv_connected (handshakes (trace st)) st) r H1 Hs').
    by rewrite handshakes_kv_connected.
  - intros e -> He. unfold bind at 1. rewrite kv_connect_accepted by exact H0.
    unfold bind, ret. rewrite kv_internalKeyValueStatement_executor.
    rewrite (kv_round_fatal config w _ fuel _
              (kv_connected (handshakes (trace st)) st) e H1 Hs' He).
    by rewrite handshakes_kv_connected.
Qed.

(** X9.  [get(id)] in the key-value revision, when both handshakes are
    accepted: if the read resolves, [get] returns the [content] property
    of the result ([undefined] when the result has none); if the read is
    rejected with an error that is not Retryable, such as a missing key,
    [get] raises that very error after this single attempt, having written
    it with [console.log] and started no further handshake. *)
Theorem get_returns_content_or_rethrows config w fuel id st :
  handshake w (trace st) = None ->
  handshake w (trace st ++ [Handshake (handshakes (trace st))]) = None ->
  (forall r,
     store w (trace st ++ [Handshake (handshakes (trace st));
                           Handshake (S (handshakes (trace st)))])
       (S (handshakes (trace st))) (CGet id) = Resolve r ->
     exists st',
       CouchbaseKv.get config w (S fuel) id st
         = (Return (getProp r "content"), st') /\
       (r !! "content" = None ->
        CouchbaseKv.get config w (S fuel) id st = (Return VUndefined, st')) /\
       trace st' = trace st ++ [Handshake (handshakes (trace st));
                                Handshake (S (handshakes (trace st)));
                                Call (S (handshakes (trace st))) (CGet id)]) /\
  (forall e,
     store w (trace st ++ [Handshake (handshakes (trace st));
                           Handshake (S (handshakes (trace st)))])
       (S (handshakes (trace st))) (CGet id) = Reject e ->
     isRetryable e = false ->
     exists st',
       CouchbaseKv.get config w (S fuel) id st = (Throw e, st') /\
       trace st' = trace st ++ [Handshake (handshakes (trace st));
                                Handshake (S (handshakes (trace st)));
                                Call (S (handshakes (trace st))) (CGet id);
                                ConsoleLog "Unexpected error" e]).
Proof.
  intros H0 H1. split.
  - intros r Hs.
    destruct (kv_operation_first_attempt config w
                (fun result => getProp result "content") fuel id VNull false
                st H0 H1 _ Hs) as [Hres _].
    pose proof (Hres r eq_refl) as Hget.
    change (CouchbaseKv.get config w (S fuel) id st =
            (Return (getProp r "content"),
             log (Call (S (handshakes (trace st))) (CGet id))
               (kv_connected (S (handshakes (trace st)))
                  (kv_connected (handshakes (trace st)) st)))) in Hget.
    eexists. split; [exact Hget|]. split.
    + intros Hn. rewrite Hget. unfold getProp. by rewrite Hn.
    + trace_eq.
  - intros e Hs He.
    destruct (kv_operation_first_attempt config w
                (fun result => getProp result "content") fuel id VNull false
                st H0 H1 _ Hs) as [_ Hrej].
    eexists. split; [exact (Hrej e eq_refl He)|]. trace_eq.
Qed.

Lemma get_witness :
  handshake (rejecting (VError "document not found")) (trace kv_new) = None /\
  handshake (rejecting (VError "document not found"))
    (trace kv_new ++ [Handshake (handshakes (trace kv_new))]) = None /\
  isRetryable (VError "document not found") = false /\
  exists st',
    CouchbaseKv.get (configured (BInt 3))
      (rejecting (VError "document not found")) (S 2) "k1" kv_new
      = (Throw (VError "document not found"), st') /\
    trace st' = trace kv_new ++
                [Handshake (handshakes (trace kv_new));
                 Handshake (S (handshakes (trace kv_new)));
                 Call (S (handshakes (trace kv_new))) (CGet "k1");
                 ConsoleLog "Unexpected error" (VError "document not found")].
Proof.
  split; [reflexivity|]. split; [reflexivity|]. split; [reflexivity|].
  exact (proj2 (get_returns_content_or_rethrows (configured (BInt 3))
                  (rejecting (VError "document not found")) 2 "k1" kv_new
                  eq_refl eq_refl)
           (VError "document not found") eq_refl eq_refl).
Defined.

(** ** No handle is used twice in the key-value revision *)

Lemma count_take_mono p (tr : list event) :
  forall j k, (j <= k)%nat -> (count p (take j tr) <= count p (take k tr))%nat.
Proof.
  induction tr as [|e tr IH]; intros [|j] [|k] Hjk; simpl; try lia.
  specialize (IH j k). lia.
Qed.

Lemma handshakes_numbered_snoc_handshake tr :
  handshakes_numbered tr ->
  handshakes_numbered (tr ++ [Handshake (handshakes tr)]).
Proof.
  intros Hn j h Hj. apply lookup_app_Some in Hj as [Hj | [Hlen Hj]].
  - rewrite take_app_le; [by apply Hn|].
    apply lookup_lt_Some in Hj. lia.
  - apply list_lookup_singleton_Some in Hj as [Hj [= <-]].
    assert (j = length tr) as -> by lia. by rewrite take_app_length.
Qed.

Lemma handshakes_numbered_snoc_other tr e :
  handshakes_numbered tr -> isHandshake e = false ->
  handshakes_numbered (tr ++ [e]).
Proof.
  intros Hn He j h Hj. apply lookup_app_Some in Hj as [Hj | [Hlen Hj]].
  - rewrite take_app_le; [by apply Hn|].
    apply lookup_lt_Some in Hj. lia.
  - apply list_lookup_singleton_Some in Hj as [_ ->]. discriminate He.
Qed.

Lemma numbered_handles_never_reused tr :
  handshakes_numbered tr -> attempts_follow_handshake tr ->
  handles_never_reused tr.
Proof.
  intros Hn Ha i1 i2 h1 c1 h2 c2 Hlt H1 H2.
  destruct (Ha _ _ _ H1) as (j1 & -> & Hj1).
  destruct (Ha _ _ _ H2) as (j2 & -> & Hj2).
  rewrite (Hn _ _ Hj1), (Hn _ _ Hj2).
  pose proof (count_take_mono isHandshake tr (S j1) j2 ltac:(lia)) as Hm.
  rewrite (take_S_r tr j1 _ Hj1), count_app in Hm. simpl in Hm.
  unfold handshakes. lia.
Qed.

Section NumberedHandles.
Context {F : Type}.
Variable w : World.
Variable limit : budget.
Variable acquire : M F handle.
Variable op : call.
Variable reconnect : M F unit.

Local Abbreviation run := (executor w limit acquire op reconnect).

Hypothesis acquire_keeps :
  forall st, handshakes_numbered (trace st) ->
    handshakes_numbered (trace (snd (acquire st))).
Hypothesis reconnect_keeps :
  forall st, handshakes_numbered (trace st) ->
    handshakes_numbered (trace (snd (reconnect st))).

Lemma executor_keeps_numbered fuel :
  forall retry st,
    handshakes_numbered (trace st) ->
    handshakes_numbered (trace (snd (run fuel retry st))).
Proof.
  induction fuel as [|fuel IH]; intros retry st Hst; simpl; [exact Hst|].
  unfold bind, try_catch, storeCall.
  pose proof (acquire_keeps st Hst) as Ha.
  destruct (acquire st) as [[h|e|] st1]; simpl in Ha; try exact Ha.
  assert (Hc : handshakes_numbered (trace (log (Call h op) st1))).
  { by apply handshakes_numbered_snoc_other. }
  destruct (store w (trace st1) h op) as [r|e]; [exact Hc|].
  destruct (isRetryable e).
  - pose proof (reconnect_keeps _ Hc) as Hr.
    destruct (reconnect (log (Call h op) st1)) as [[[]|e'|] st2];
      simpl in Hr; try exact Hr.
    destruct (le_zero retry); simpl.
    + by apply handshakes_numbered_snoc_other.
    + by apply IH.
  - simpl. by apply handshakes_numbered_snoc_other.
Qed.
End NumberedHandles.

Lemma kv_connect_keeps_numbered w st :
  handshakes_numbered (trace st) ->
  handshakes_numbered (trace (snd (CouchbaseKv.connect w st))).
Proof.
  intros Hst. destruct (handshake w (trace st)) as [e|] eqn:Hh.
  - rewrite (kv_connect_rejected w st e Hh). simpl.
    by apply handshakes_numbered_snoc_handshake.
  - rewrite (kv_connect_accepted w st Hh). simpl.
    by apply handshakes_numbered_snoc_handshake.
Qed.

Lemma kv_connect_unawaited_keeps_numbered st :
  handshakes_numbered (trace st) ->
  handshakes_numbered (trace (snd (CouchbaseKv.connect_unawaited st))).
Proof. intros Hst. simpl. by apply handshakes_numbered_snoc_handshake. Qed.



(** X10.  In the key-value revision no two attempts ever run on the same
    handle.  Starting from a history in which handshakes are numbered in
    order and attempts follow their handshake (the empty history of a new
    instance is one), every run of [internalQuery] and of
    [internalKeyValueStatement], whatever the cluster answers, leaves a
    history in which a later attempt is always made on a later handshake:
    the first attempt and each retry get a connection of their own. *)
Theorem kv_never_reuses_a_handle config w fuel retry st :
  handshakes_numbered (trace st) ->
  attempts_follow_handshake (trace st) ->
  (forall query,
     handles_never_reused
       (trace (snd (CouchbaseKv.internalQuery config w fuel query retry st)))) /\
  (forall key v deletion,
     handles_never_reused
       (trace (snd (CouchbaseKv.internalKeyValueStatement config w fuel key v
                      deletion retry st)))).
Proof.
  intros Hn Ha.
  destruct (kv_attempts_follow_handshake config w fuel retry st Ha) as [Hq Hs].
  split.
  - intros query. apply numbered_handles_never_reused; [|apply Hq].
    rewrite kv_internalQuery_executor.
    apply executor_keeps_numbered;
      auto using kv_connect_keeps_numbered, kv_connect_unawaited_keeps_numbered.
  - intros key v deletion. apply numbered_handles_never_reused; [|apply Hs].
    rewrite kv_internalKeyValueStatement_executor.
    apply executor_keeps_numbered;
      auto using kv_connect_keeps_numbered, kv_connect_unawaited_keeps_numbered.
Qed.

Lemma kv_never_reuses_witness :
  handshakes_numbered (trace kv_new) /\
  attempts_follow_handshake (trace kv_new) /\
  handles_never_reused
    (trace (snd (CouchbaseKv.internalQuery (configured (BInt 3))
                   (rejecting (VError "107")) 5 select1 (BInt 3) kv_new))).
Proof.
  assert (Hn : handshakes_numbered (trace kv_new)).
  { intros j h Hj. simpl in Hj. rewrite lookup_nil in Hj. discriminate Hj. }
  assert (Ha : attempts_follow_handshake (trace kv_new)).
  { intros i h c Hi. simpl in Hi. rewrite lookup_nil in Hi. discriminate Hi. }
  split; [exact Hn|]. split; [exact Ha|].
  exact (proj1 (kv_never_reuses_a_handle (configured (BInt 3))
                  (rejecting (VError "107")) 5 (BInt 3) kv_new Hn Ha) select1).
Defined.

(** ** The stored handle plays no part in the key-value revision *)

Lemma hd_ret {F A} (a : A) : history_determined (@ret F A a).
Proof. by intros st1 st2 Ht. Qed.

Lemma hd_throw {F A} (e : value) : history_determined (@throw F A e).
Proof. by intros st1 st2 Ht. Qed.

Lemma hd_out_of_fuel {F A} : history_determined (@out_of_fuel F A).
Proof. by intros st1 st2 Ht. Qed.

Lemma hd_emit {F} (e : event) : history_determined (@emit F e).
Proof. intros st1 st2 Ht. simpl. by rewrite Ht. Qed.

Lemma hd_storeCall {F} w h c : history_determined (@storeCall F w h c).
Proof.
  intros st1 st2 Ht. unfold storeCall. rewrite Ht.
  destruct (store w (trace st2) h c); simpl; by rewrite Ht.
Qed.

Lemma hd_sdkConnect {F} w : history_determined (@sdkConnect F w).
Proof.
  intros st1 st2 Ht. unfold sdkConnect. rewrite Ht.
  destruct (handshake w (trace st2)); simpl; by rewrite Ht.
Qed.

Lemma hd_bind {F A B} (m : M F A) (k : A -> M F B) :
  history_determined m -> (forall a, history_determined (k a)) ->
  history_determined (bind m k).
Proof.
  intros Hm Hk st1 st2 Ht. unfold bind.
  destruct (Hm st1 st2 Ht) as [Ho Htr].
  destruct (m st1) as [o1 s1], (m st2) as [o2 s2]; simpl in Ho, Htr.
  subst o2. destruct o1; [by apply Hk | done | done].
Qed.

Lemma hd_try_catch {F A} (m : M F A) (handler : value -> M F A) :
  history_determined m -> (forall e, history_determined (handler e)) ->
  history_determined (try_catch m handler).
Proof.
  intros Hm Hk st1 st2 Ht. unfold try_catch.
  destruct (Hm st1 st2 Ht) as [Ho Htr].
  destruct (m st1) as [o1 s1], (m st2) as [o2 s2]; simpl in Ho, Htr.
  subst o2. destruct o1; [done | by apply Hk | done].
Qed.

Lemma hd_kv_connect w : history_determined (CouchbaseKv.connect w).
Proof.
  unfold CouchbaseKv.connect. apply hd_bind; [apply hd_sdkConnect|].
  intros c. apply hd_bind; [by intros st1 st2 Ht|].
  intros _. apply hd_bind; [by intros st1 st2 Ht|].
  intros _. apply hd_ret.
Qed.

Lemma hd_kv_connect_unawaited :
  history_determined CouchbaseKv.connect_unawaited.
Proof. intros st1 st2 Ht. unfold CouchbaseKv.connect_unawaited; simpl. by rewrite Ht. Qed.

Lemma hd_kv_internalQuery config w fuel :
  forall query retry,
    history_determined (CouchbaseKv.internalQuery config w fuel query retry).
Proof.
  induction fuel as [|fuel IH]; intros query retry; simpl.
  { apply hd_out_of_fuel. }
  apply hd_bind; [apply hd_kv_connect|]. intros bucket.
  apply hd_try_catch; [apply hd_storeCall|]. intros err.
  destruct (isRetryable err).
  - apply hd_bind; [apply hd_kv_connect_unawaited|]. intros _.
    destruct (le_zero retry); [|apply IH].
    apply hd_bind; [apply hd_emit | intros _; apply hd_throw].
  - apply hd_bind; [apply hd_emit | intros _; apply hd_throw].
Qed.

Lemma hd_kv_internalKeyValueStatement config w fuel :
  forall key v deletion retry,
    history_determined
      (CouchbaseKv.internalKeyValueStatement config w fuel key v deletion retry).
Proof.
  induction fuel as [|fuel IH]; intros key v deletion retry; simpl.
  { apply hd_out_of_fuel. }
  apply hd_bind; [apply hd_kv_connect|]. intros bucket.
  apply hd_try_catch.
  { destruct (negb deletion); [destruct (negb (truthy v))|]; apply hd_storeCall. }
  intros err. destruct (isRetryable err).
  - apply hd_bind; [apply hd_kv_connect_unawaited|]. intros _.
    destruct (le_zero retry); [|apply IH].
    apply hd_bind; [apply hd_emit | intros _; apply hd_throw].
  - apply hd_bind; [apply hd_emit | intros _; apply hd_throw].
Qed.

(** X11.  The key-value revision never reads the handle it stores.  The
    outcome of [internalQuery], [internalKeyValueStatement], [read],
    [insert], [delete] and [get], and the history each leaves, are the
    same for two instances that have the same history behind them,
    whatever their [cluster], [bucket] and pending handshakes are. *)
Theorem kv_runs_ignore_the_stored_handle config w getSqlQuery fuel :
  (forall query retry,
     history_determined (CouchbaseKv.internalQuery config w fuel query retry)) /\
  (forall key v deletion retry,
     history_determined
       (CouchbaseKv.internalKeyValueStatement config w fuel key v deletion
          retry)) /\
  (forall query,
     history_determined (CouchbaseKv.read config w getSqlQuery fuel query)) /\
  (forall entry,
     history_determined (CouchbaseKv.insert config w fuel entry)) /\
  (forall id, history_determined (CouchbaseKv.delete config w fuel id)) /\
  (forall id, history_determined (CouchbaseKv.get config w fuel id)).
Proof.
  split; [apply hd_kv_internalQuery|].
  split; [apply hd_kv_internalKeyValueStatement|].
  split; [|split; [|split]].
  - intros query. unfold CouchbaseKv.read.
    apply hd_bind; [apply hd_kv_connect|]. intros _.
    apply hd_bind; [apply hd_kv_internalQuery | intros r; apply hd_ret].
  - intros entry. unfold CouchbaseKv.insert.
    apply hd_bind; [apply hd_kv_connect|]. intros _.
    apply hd_bind; [apply hd_kv_internalKeyValueStatement
                   | intros r; apply hd_ret].
  - intros id. unfold CouchbaseKv.delete.
    apply hd_bind; [apply hd_kv_connect|]. intros _.
    apply hd_bind; [apply hd_kv_internalKeyValueStatement
                   | intros r; apply hd_ret].
  - intros id. unfold CouchbaseKv.get.
    apply hd_bind; [apply hd_kv_connect|]. intros _.
    apply hd_bind; [apply hd_kv_internalKeyValueStatement
                   | intros r; apply hd_ret].
Qed.

(** Two instances with the same history and different stored handles. *)
Lemma kv_ignores_stored_handle_witness :
  let stale : state CouchbaseKv.fields :=
    mkState {| CouchbaseKv.cluster := Some 7%nat;
               CouchbaseKv.bucket := Some 7%nat;
               CouchbaseKv.pending := [9%nat] |} [] in
  trace stale = trace kv_new /\
  fst (CouchbaseKv.get (configured (BInt 3)) (resolving no_rows) 2 "k1" stale)
    = fst (CouchbaseKv.get (configured (BInt 3)) (resolving no_rows) 2 "k1"
             kv_new) /\
  trace (snd (CouchbaseKv.get (configured (BInt 3)) (resolving no_rows) 2
                "k1" stale))
    = trace (snd (CouchbaseKv.get (configured (BInt 3)) (resolving no_rows) 2
                    "k1" kv_new)).
Proof.
  cbv zeta. split; [reflexivity|].
  destruct (kv_runs_ignore_the_stored_handle (configured (BInt 3))
              (resolving no_rows) canonicalQuery 2)
    as (_ & _ & _ & _ & _ & Hget).
  apply (Hget "k1"). reflexivity.
Defined.

(** ** Thrown values that are not errors *)

Lemma to_int_not_nil z :
  Z.to_int z <> Decimal.Pos Decimal.Nil /\ Z.to_int z <> Decimal.Neg Decimal.Nil.
Proof.
  destruct z as [|p|p]; simpl; split; try discriminate;
    intros [= E]; by apply (Unsigned.to_uint_nonnil p).
Qed.

Lemma decimal_inj z z' : decimal z = decimal z' -> z = z'.
Proof.
  unfold decimal. intros E. apply DecimalZ.to_int_inj.
  apply (f_equal NilZero.int_of_string) in E.
  destruct (to_int_not_nil z) as [P N], (to_int_not_nil z') as [P' N'].
  rewrite !NilZero.isi in E by assumption. by injection E.
Qed.

(** X12.  How the classifier treats a thrown value that is not an [Error],
    after [String(err)]: a thrown string is classified like the [Error]
    with that message, and so is a one-element array holding that string;
    a thrown integer is Retryable exactly when it is 107, 100, 170 or 201;
    [undefined], [null], a boolean, NaN and a plain object are always
    Fatal. *)
Theorem classifier_on_thrown_non_errors :
  (forall s, classify (VStr s) = classify (VError s)) /\
  (forall s, classify (VArr [VStr s]) = classify (VError s)) /\
  (forall z, classify (VNum z) = Retryable <->
             z = 107 \/ z = 100 \/ z = 170 \/ z = 201) /\
  classify VUndefined = Fatal /\
  classify VNull = Fatal /\
  (forall b, classify (VBool b) = Fatal) /\
  classify VNaN = Fatal /\
  (forall o, classify (VObj o) = Fatal).
Proof.
  split; [reflexivity|]. split; [reflexivity|]. split.
  - intros z.
    assert (Hc : classify (VNum z) = Retryable <->
                 isRetryable (VNum z) = true).
    { unfold classify. by destruct (isRetryable (VNum z)). }
    rewrite Hc. unfold isRetryable, messageOf. cbn [instanceofError toString].
    cbv zeta. rewrite orb_true_iff, includes_retryErrorCodes.
    split.
    + intros [[E|[E|[E|E]]] | E].
      * left. by apply decimal_inj.
      * right; left. by apply decimal_inj.
      * right; right; left. by apply decimal_inj.
      * right; right; right. by apply decimal_inj.
      * apply String.eqb_eq in E. exfalso.
        unfold decimal in E.
        apply (f_equal NilZero.int_of_string) in E.
        destruct (to_int_not_nil z) as [P N].
        rewrite NilZero.isi in E by assumption. discriminate E.
    + intros [-> | [-> | [-> | ->]]]; left; vm_compute; tauto.
  - repeat split; try reflexivity. by intros [].
Qed.

(** ** Operations under an integer budget *)

Lemma kv_operation_bounded w {A} (m : M CouchbaseKv.fields obj)
    (finish : obj -> A) (n : nat) :
  (forall st, fst (m st) <> OutOfFuel /\
              (attempts (trace (snd (m st))) <= attempts (trace st) + n)%nat) ->
  forall st,
    fst (bind (CouchbaseKv.connect w) (fun _ =>
         bind m (fun result => ret (finish result))) st) <> OutOfFuel /\
    (attempts (trace (snd (bind (CouchbaseKv.connect w) (fun _ =>
                           bind m (fun result => ret (finish result))) st)))
       <= attempts (trace st) + n)%nat.
Proof.
  intros Hm st. unfold bind, ret.
  pose proof (extends_quiet_attempts _ _ (kv_connect_quiet w st)) as Ec.
  pose proof (kv_connect_settles w st) as Hc.
  destruct (CouchbaseKv.connect w st) as [[h|e|] st1]; cbn [fst snd] in Ec, Hc.
  - destruct (Hm st1) as [Hout Hle].
    destruct (m st1) as [[r|e|] st2]; cbn [fst snd] in *;
      (split; [done | lia]).
  - cbn [fst snd]. split; [done | lia].
  - done.
Qed.

Lemma sql_operation_bounded {A} (m : M CouchbaseSql.fields obj)
    (finish : obj -> A) (n : nat) :
  (forall st, fst (m st) <> OutOfFuel /\
              (attempts (trace (snd (m st))) <= attempts (trace st) + n)%nat) ->
  forall st,
    fst (bind CouchbaseSql.connect (fun _ =>
         bind m (fun result => ret (finish result))) st) <> OutOfFuel /\
    (attempts (trace (snd (bind CouchbaseSql.connect (fun _ =>
                           bind m (fun result => ret (finish result))) st)))
       <= attempts (trace st) + n)%nat.
Proof.
  intros Hm st. rewrite !sql_connect_then. unfold bind, ret.
  destruct (Hm st) as [Hout Hle].
  destruct (m st) as [[r|e|] st2]; cbn [fst snd] in *; (split; [done | lia]).
Qed.

(** X13.  With an integer [maxRetries = z] in the configuration, every
    operation of either revision settles, whatever the cluster answers,
    after at most [z + 1] underlying attempts (one attempt when
    [z <= 0]). *)
Theorem operations_settle_within_budget config w getSqlQuery z fuel :
  maxRetries config = BInt z ->
  (Z.to_nat z < fuel)%nat ->
  (forall query st,
     fst (CouchbaseKv.read config w getSqlQuery fuel query st) <> OutOfFuel /\
     (attempts (trace (snd (CouchbaseKv.read config w getSqlQuery fuel query st)))
        <= attempts (trace st) + (Z.to_nat z + 1))%nat) /\
  (forall entry st,
     fst (CouchbaseKv.insert config w fuel entry st) <> OutOfFuel /\
     (attempts (trace (snd (CouchbaseKv.insert config w fuel entry st)))
        <= attempts (trace st) + (Z.to_nat z + 1))%nat) /\
  (forall id st,
     fst (CouchbaseKv.delete config w fuel id st) <> OutOfFuel /\
     (attempts (trace (snd (CouchbaseKv.delete config w fuel id st)))
        <= attempts (trace st) + (Z.to_nat z + 1))%nat) /\
  (forall id st,
     fst (CouchbaseKv.get config w fuel id st) <> OutOfFuel /\
     (attempts (trace (snd (CouchbaseKv.get config w fuel id st)))
        <= attempts (trace st) + (Z.to_nat z + 1))%nat) /\
  (forall query st,
     fst (CouchbaseSql.read config w getSqlQuery fuel query st) <> OutOfFuel /\
     (attempts (trace (snd (CouchbaseSql.read config w getSqlQuery fuel query st)))
        <= attempts (trace st) + (Z.to_nat z + 1))%nat) /\
  (forall query st,
     fst (CouchbaseSql.create config w getSqlQuery fuel query st) <> OutOfFuel /\
     (attempts (trace (snd (CouchbaseSql.create config w getSqlQuery fuel query st)))
        <= attempts (trace st) + (Z.to_nat z + 1))%nat) /\
  (forall query st,
     fst (CouchbaseSql.update config w getSqlQuery fuel query st) <> OutOfFuel /\
     (attempts (trace (snd (CouchbaseSql.update config w getSqlQuery fuel query st)))
        <= attempts (trace st) + (Z.to_nat z + 1))%nat) /\
  (forall query st,
     fst (CouchbaseSql.delete config w getSqlQuery fuel query st) <> OutOfFuel /\
     (attempts (trace (snd (CouchbaseSql.delete config w getSqlQuery fuel query st)))
        <= attempts (trace st) + (Z.to_nat z + 1))%nat).
Proof.
  intros Hm Hf.
  assert (Hkq : forall query st,
    fst (CouchbaseKv.internalQuery config w fuel query (maxRetries config) st)
      <> OutOfFuel /\
    (attempts (trace (snd (CouchbaseKv.internalQuery config w fuel query
                             (maxRetries config) st)))
       <= attempts (trace st) + (Z.to_nat z + 1))%nat).
  { intros query st. rewrite kv_internalQuery_executor, Hm.
    destruct (executor_bounded w (BInt z) (CouchbaseKv.connect w)
                (CQuery (sql query)) CouchbaseKv.connect_unawaited
                (kv_connect_quiet w) kv_connect_unawaited_quiet
                (kv_connect_settles w) kv_connect_unawaited_returns
                (Z.to_nat z) z fuel st eq_refl Hf) as [Ho Hle].
    split; [exact Ho | lia]. }
  assert (Hks : forall key v deletion st,
    fst (CouchbaseKv.internalKeyValueStatement config w fuel key v deletion
           (maxRetries config) st) <> OutOfFuel /\
    (attempts (trace (snd (CouchbaseKv.internalKeyValueStatement config w fuel
                             key v deletion (maxRetries config) st)))
       <= attempts (trace st) + (Z.to_nat z + 1))%nat).
  { intros key v deletion st.
    rewrite kv_internalKeyValueStatement_executor, Hm.
    destruct (executor_bounded w (BInt z) (CouchbaseKv.connect w)
                (kvCall key v deletion) CouchbaseKv.connect_unawaited
                (kv_connect_quiet w) kv_connect_unawaited_quiet
                (kv_connect_settles w) kv_connect_unawaited_returns
                (Z.to_nat z) z fuel st eq_refl Hf) as [Ho Hle].
    split; [exact Ho | lia]. }
  assert (Hsq : forall query st,
    fst (CouchbaseSql.internalQuery config w fuel query (maxRetries config) st)
      <> OutOfFuel /\
    (attempts (trace (snd (CouchbaseSql.internalQuery config w fuel query
                             (maxRetries config) st)))
       <= attempts (trace st) + (Z.to_nat z + 1))%nat).
  { intros query st. rewrite sql_internalQuery_executor, Hm.
    destruct (executor_bounded w (BInt z) CouchbaseSql.this_cluster
                (CQuery (sql query)) CouchbaseSql.connect_unawaited
                sql_this_cluster_quiet sql_connect_unawaited_quiet
                (fun st0 => ltac:(simpl; discriminate))
                (fun st0 => ex_intro _ st0 eq_refl)
                (Z.to_nat z) z fuel st eq_refl Hf) as [Ho Hle].
    split; [exact Ho | lia]. }
  split; [|split; [|split; [|split; [|split; [|split; [|split]]]]]].
  - intros query.
    exact (kv_operation_bounded w _ (fun r => getProp r "rows") _
             (Hkq (getSqlQuery query))).
  - intros entry.
    exact (kv_operation_bounded w _ (fun r => r) _
             (Hks (CouchbaseKv.id entry) (CouchbaseKv.value_of entry) false)).
  - intros id.
    exact (kv_operation_bounded w _ (fun r => r) _ (Hks id VNull true)).
  - intros id.
    exact (kv_operation_bounded w _ (fun r => getProp r "content") _
             (Hks id VNull false)).
  - intros query.
    exact (sql_operation_bounded _ (fun r => getProp r "recordset") _
             (Hsq (getSqlQuery query))).
  - intros query.
    exact (sql_operation_bounded _
             (fun r => orElse (getProp r "recordset")
                         (CouchbaseSql.marker "created")) _
             (Hsq (getSqlQuery query))).
  - intros query.
    exact (sql_operation_bounded _
             (fun r => orElse (getProp r "recordset")
                         (CouchbaseSql.marker "updated")) _
             (Hsq (getSqlQuery query))).
  - intros query.
    exact (sql_operation_bounded _
             (fun r => orElse (getProp r "recordset")
                         (CouchbaseSql.marker "deleted")) _
             (Hsq (getSqlQuery query))).
Qed.

Lemma operations_settle_witness :
  maxRetries (configured (BInt 2)) = BInt 2 /\
  (Z.to_nat 2 < 3)%nat /\
  fst (CouchbaseKv.get (configured (BInt 2)) (rejecting (VError "107")) 3
         "k1" kv_new) <> OutOfFuel /\
  (attempts (trace (snd (CouchbaseKv.get (configured (BInt 2))
                           (rejecting (VError "107")) 3 "k1" kv_new)))
     <= attempts (trace kv_new) + (Z.to_nat 2 + 1))%nat.
Proof.
  assert (Hf : (Z.to_nat 2 < 3)%nat) by (simpl; lia).
  split; [reflexivity|]. split; [exact Hf|].
  destruct (operations_settle_within_budget (configured (BInt 2))
              (rejecting (VError "107")) canonicalQuery 2 3 eq_refl Hf)
    as (_ & _ & _ & Hget & _).
  exact (Hget "k1" kv_new).
Defined.

(** ** Handshakes nobody awaits *)




(** ** What reaches the console *)

Section ExecutorConsole.
Context {F : Type}.
Variable w : World.
Variable limit : budget.
Variable acquire : M F handle.
Variable op : call.
Variable reconnect : M F unit.

Local Abbreviation run := (executor w limit acquire op reconnect).

Hypothesis acquire_silent :
  forall st, extends (fun e => isConsole e = false) st (snd (acquire st)).
Hypothesis reconnect_silent :
  forall st, extends (fun e => isConsole e = false) st (snd (reconnect st)).

Lemma executor_returns_silently fuel :
  forall retry st r,
    fst (run fuel retry st) = Return r ->
    extends (fun e => isConsole e = false) st (snd (run fuel retry st)).
Proof.
  induction fuel as [|fuel IH]; intros retry st r; [discriminate|].
  simpl. unfold bind, try_catch, storeCall.
  pose proof (acquire_silent st) as Ha.
  destruct (acquire st) as [[h|e|] st1]; cbn [snd] in Ha; try discriminate.
  assert (Hc : extends (fun e => isConsole e = false) st (log (Call h op) st1)).
  { eapply extends_trans; [exact Ha | by apply extends_log]. }
  destruct (store w (trace st1) h op) as [r'|e]; [by intros _|].
  destruct (isRetryable e).
  - pose proof (reconnect_silent (log (Call h op) st1)) as Hr.
    destruct (reconnect (log (Call h op) st1)) as [[[]|e'|] st2];
      cbn [snd] in Hr; try discriminate.
    destruct (le_zero retry); [discriminate|].
    intros Hret. eapply extends_trans; [exact Hc|].
    eapply extends_trans; [exact Hr | by eapply IH].
  - discriminate.
Qed.
End ExecutorConsole.

Lemma kv_connect_silent w st :
  extends (fun e => isConsole e = false) st (snd (CouchbaseKv.connect w st)).
Proof.
  exists [Handshake (handshakes (trace st))].
  split; [|by repeat constructor].
  unfold CouchbaseKv.connect, bind, sdkConnect.
  by destruct (handshake w (trace st)).
Qed.

Lemma kv_connect_unawaited_silent st :
  extends (fun e => isConsole e = false) st
    (snd (CouchbaseKv.connect_unawaited st)).
Proof.
  exists [Handshake (handshakes (trace st))].
  split; [done | by repeat constructor].
Qed.

(** X15.  A run that returns a result has written nothing to the console,
    however many transient failures it went through: the executors write
    to the console only on the two paths that throw, so an error that was
    retried with success leaves no line behind. *)
Theorem successful_runs_write_nothing config w fuel retry r :
  (forall query st,
     fst (CouchbaseKv.internalQuery config w fuel query retry st) = Return r ->
     extends (fun e => isConsole e = false) st
       (snd (CouchbaseKv.internalQuery config w fuel query retry st))) /\
  (forall key v deletion st,
     fst (CouchbaseKv.internalKeyValueStatement config w fuel key v deletion
            retry st) = Return r ->
     extends (fun e => isConsole e = false) st
       (snd (CouchbaseKv.internalKeyValueStatement config w fuel key v
               deletion retry st))) /\
  (forall query st,
     fst (CouchbaseSql.internalQuery config w fuel query retry st) = Return r ->
     extends (fun e => isConsole e = false) st
       (snd (CouchbaseSql.internalQuery config w fuel query retry st))).
Proof.
  split; [|split].
  - intros query st. rewrite kv_internalQuery_executor.
    apply executor_returns_silently;
      auto using kv_connect_silent, kv_connect_unawaited_silent.
  - intros key v deletion st. rewrite kv_internalKeyValueStatement_executor.
    apply executor_returns_silently;
      auto using kv_connect_silent, kv_connect_unawaited_silent.
  - intros query st. rewrite sql_internalQuery_executor.
    apply executor_returns_silently; intros st0; apply extends_refl.
Qed.

Lemma successful_runs_witness :
  fst (CouchbaseKv.internalQuery (configured (BInt 3))
         (failing_times 2 (VError "107") no_rows) 4 select1 (BInt 3) kv_new)
    = Return no_rows /\
  extends (fun e => isConsole e = false) kv_new
    (snd (CouchbaseKv.internalQuery (configured (BInt 3))
            (failing_times 2 (VError "107") no_rows) 4 select1 (BInt 3)
            kv_new)).
Proof.
  assert (Hr : fst (CouchbaseKv.internalQuery (configured (BInt 3))
                      (failing_times 2 (VError "107") no_rows) 4 select1
                      (BInt 3) kv_new) = Return no_rows) by reflexivity.
  split; [exact Hr|].
  exact (proj1 (successful_runs_write_nothing (configured (BInt 3))
                  (failing_times 2 (VError "107") no_rows) 4 (BInt 3) no_rows)
           select1 kv_new Hr).
Defined.
